(** * The confidence-interval simulation of [poline-stats/evil-p.ipynb]

    A shallow embedding of the statistics notebook: [t_value_from_sample],
    [confidence_interval], the cell that simulates [Nexp] experiments and
    thresholds their t values, and the cell that reports on the detections.

    The notebook computes with numpy's float64.  The code is embedded once,
    over an interface [Numeric] of the arithmetic it uses, and read in two
    number systems: IEEE binary64 ([float], where NaN exists and the code can
    be run on concrete arrays) and the real numbers ([R], the number system
    of the specification's data model, where the algebra of the formulas is
    proved). *)

From Stdlib Require Import ZArith List Bool Lia.
From Stdlib Require Import Reals Lra.
From Stdlib Require Import Floats Uint63.
From Stdlib Require String.
Import ListNotations.

Set Implicit Arguments.
Set Warnings "-inexact-float".

(** ** Numbers *)

Declare Scope num_scope.
Delimit Scope num_scope with num.

(** The arithmetic the notebook uses on floats.  [of_int] is the conversion
    of a Python int to a float that numpy applies to [n] in [np.sqrt(n)] and
    to the counts it divides by. *)
Class Numeric (num : Type) : Type := {
  add : num -> num -> num;
  sub : num -> num -> num;
  mul : num -> num -> num;
  div : num -> num -> num;
  sqrt : num -> num;
  of_int : Z -> num;
  ltb : num -> num -> bool;
  leb : num -> num -> bool;
  eqb : num -> num -> bool
}.

Infix "+" := add : num_scope.
Infix "-" := sub : num_scope.
Infix "*" := mul : num_scope.
Infix "/" := div : num_scope.
Infix "<?" := ltb : num_scope.
Infix "<=?" := leb : num_scope.
Infix "=?" := eqb : num_scope.
Notation "x >? y" := (ltb y x)
  (at level 70, no associativity, only parsing) : num_scope.
Notation "x >=? y" := (leb y x)
  (at level 70, no associativity, only parsing) : num_scope.

(** What the comparisons of both number systems obey: [x < y] gives
    [x <= y], and [x <= y] excludes [x > y].  (With a NaN operand every
    comparison is false, which satisfies both.) *)
Class NumericLaws (num : Type) `{Numeric num} : Prop := {
  ltb_leb : forall x y : num, ltb x y = true -> leb x y = true;
  leb_not_gtb : forall x y : num, leb x y = true -> ltb y x = false
}.

Arguments NumericLaws num {_}.

(** *** IEEE binary64 *)

(** A Python int as a float64: the nearest float, ties to even (exact below
    2^53 in absolute value, infinite from 2^1024 on). *)
Definition float_of_int (z : Z) : float :=
  SF2Prim (binary_normalize prec emax z 0 false).

#[export] Instance float64 : Numeric float := {
  add := PrimFloat.add;
  sub := PrimFloat.sub;
  mul := PrimFloat.mul;
  div := PrimFloat.div;
  sqrt := PrimFloat.sqrt;
  of_int := float_of_int;
  ltb := PrimFloat.ltb;
  leb := PrimFloat.leb;
  eqb := PrimFloat.eqb
}.

(** *** Real numbers *)

Definition Rltb (x y : R) : bool := if Rlt_dec x y then true else false.
Definition Rleb (x y : R) : bool := if Rle_dec x y then true else false.
Definition Reqb (x y : R) : bool := if Req_dec_T x y then true else false.

#[export] Instance real : Numeric R := {
  add := Rplus;
  sub := Rminus;
  mul := Rmult;
  div := Rdiv;
  sqrt := R_sqrt.sqrt;
  of_int := IZR;
  ltb := Rltb;
  leb := Rleb;
  eqb := Reqb
}.

(** ** Exceptions and the global random state *)

(** The only exception the modelled calls raise: the [ValueError] of the
    sampler's argument check.  The notebook has no [raise] of its own. *)
Inductive exn : Type :=
| ValueError.

Inductive Outcome (A : Type) : Type :=
| Returned (a : A)
| Raised (e : exn).

Arguments Returned {A} a.
Arguments Raised {A} e.


Section Simulation.

Variable num : Type.
Context `{Numeric num}.

Local Open Scope num_scope.

(** [np.random]'s global generator: the sequence of standard normal
    variates it will produce, and how many were consumed. *)
Record RandomState : Type := {
  variates : nat -> num;
  position : nat
}.

(** A computation that reads and advances the generator and may raise. *)
Definition M (A : Type) : Type := RandomState -> Outcome A * RandomState.

Definition ret {A : Type} (a : A) : M A := fun g => (Returned a, g).

Definition raise {A : Type} (e : exn) : M A := fun g => (Raised e, g).

Definition bind {A B : Type} (c : M A) (k : A -> M B) : M B :=
  fun g =>
    match c g with
    | (Returned a, g') => k a g'
    | (Raised e, g') => (Raised e, g')
    end.

Notation "x <- c ;; k" := (bind c (fun x => k))
  (at level 61, c at next level, right associativity).

(** [np.random.seed(s)]: the state is replaced by the one the seed
    determines; [streams] is the generator's sequence for each seed. *)
Definition np_random_seed (streams : Z -> nat -> num) (s : Z) : M unit :=
  fun _ => (Returned tt, {| variates := streams s; position := 0 |}).

(** ** numpy *)

(** [RandomState.standard_normal(size)] for a non-negative [size]: the next
    [size] variates. *)
Definition standard_normal (size : nat) : M (list num) :=
  fun g =>
    (Returned (map (variates g) (seq (position g) size)),
     {| variates := variates g; position := position g + size |}).

(** [a.sum()] is [np.add.reduce], whose loop over a contiguous float array
    is the pairwise summation of numpy's [loops_utils.h], added to the
    identity 0 the reduction starts from.  The three definitions that follow
    are the parts of its middle case. *)

(** [r[j] += a[i + j]] for the 8 accumulators [r] and a block of 8. *)
Fixpoint add_accumulators (r block : list num) : list num :=
  match r, block with
  | x :: r', y :: block' => (x + y) :: add_accumulators r' block'
  | _, _ => r
  end.

(** [for (i = 8; i < n - (n % 8); i += 8)]: the full blocks of 8 after the
    first one; the elements left over are returned with the accumulators. *)
Fixpoint accumulate_blocks (blocks : nat) (r a : list num)
  : list num * list num :=
  match blocks with
  | O => (r, a)
  | S blocks' =>
      accumulate_blocks blocks' (add_accumulators r (firstn 8 a)) (skipn 8 a)
  end.

(** [((r[0] + r[1]) + (r[2] + r[3])) + ((r[4] + r[5]) + (r[6] + r[7]))]. *)
Definition add_tree (r : list num) : num :=
  match r with
  | [r0; r1; r2; r3; r4; r5; r6; r7] =>
      ((r0 + r1) + (r2 + r3)) + ((r4 + r5) + (r6 + r7))
  | _ => of_int 0
  end.

(** [pairwise_sum(a, n)]: fewer than 8 elements are added from left to
    right starting from zero; up to 128 elements go through the 8
    accumulators, their tree, and then the elements after the last full
    block; a longer array is split at [n2 = n / 2 - (n / 2) % 8] and the two
    sums are added.  [depth] bounds the splits; the length of the array is
    always enough ([pairwise_sum_depth]). *)
Fixpoint pairwise_sum (depth : nat) (a : list num) : num :=
  let n := length a in
  if (n <? 8)%nat then fold_left add a (of_int 0)
  else if (n <=? 128)%nat then
    let '(r, rest) :=
      accumulate_blocks (n / 8 - 1) (firstn 8 a) (skipn 8 a) in
    fold_left add rest (add_tree r)
  else
    match depth with
    | O => of_int 0
    | S depth' =>
        let n2 := (n / 2 - (n / 2) mod 8)%nat in
        pairwise_sum depth' (firstn n2 a) + pairwise_sum depth' (skipn n2 a)
    end.

Definition np_sum (a : list num) : num :=
  of_int 0 + pairwise_sum (length a) a.

(** Python's [len], as an int. *)
Definition len {A : Type} (a : list A) : Z := Z.of_nat (length a).

(** [a.mean()]: the sum divided by the number of elements (0/0 for an empty
    array). *)
Definition np_mean (a : list num) : num :=
  np_sum a / of_int (len a).

(** [np.var(a, ddof=ddof)]: the sum of the squared deviations from the mean,
    divided by [max(len(a) - ddof, 0)]. *)
Definition np_var (a : list num) (ddof : Z) : num :=
  let arrmean := np_mean a in
  let x := map (fun v => v - arrmean) a in
  let x := map (fun v => v * v) x in
  np_sum x / of_int (Z.max (len a - ddof) 0).

(** [np.std(a, ddof=ddof)]: the square root of [np.var]. *)
Definition np_std (a : list num) (ddof : Z) : num :=
  sqrt (np_var a ddof).

Definition np_sqrt (x : num) : num := sqrt x.

(** [np.zeros((size,))]. *)
Definition np_zeros (size : nat) : list num := repeat (of_int 0) size.

(** [a[i] = v] for [i < len(a)], the only indices the notebook writes. *)
Fixpoint setitem {A : Type} (a : list A) (i : nat) (v : A) : list A :=
  match a, i with
  | [], _ => []
  | _ :: a', O => v :: a'
  | x :: a', S i' => x :: setitem a' i' v
  end.

(** [a > s]: the boolean array of the elementwise comparison. *)
Definition np_gt (a : list num) (s : num) : list bool :=
  map (fun v => v >? s) a.

Definition np_lt (a : list num) (s : num) : list bool :=
  map (fun v => v <? s) a.

(** [b.sum()] of a boolean array: the number of [True]s. *)
Definition np_count (b : list bool) : Z :=
  fold_left (fun acc d => (acc + Z.b2z d)%Z) b 0%Z.

(** [a[mask]]: the elements of [a] where [mask] is [True] ([mask] is as
    long as [a] wherever the notebook selects). *)
Fixpoint np_select {A : Type} (a : list A) (mask : list bool) : list A :=
  match a, mask with
  | v :: a', d :: mask' =>
      if d then v :: np_select a' mask' else np_select a' mask'
  | _, _ => []
  end.

(** ** scipy.stats *)

(** A frozen [sst.norm(loc, scale)]. *)
Record norm_frozen : Type := sst_norm {
  loc : num;
  scale : num
}.


(** [norm(loc, scale).rvs(size=(size,))]: a [ValueError] unless
    [scale >= 0], before anything is drawn; [loc] repeated when
    [scale == 0], nothing drawn; otherwise [size] standard normal variates,
    each scaled and shifted.  A negative [size] is numpy's [ValueError].
    (For a [size] above [max_array_size] see there.) *)
Definition norm_rvs (d : norm_frozen) (size : Z) : M (list num) :=
  if negb (scale d >=? of_int 0) then raise ValueError
  else if (size <? 0)%Z then raise ValueError
  else if scale d =? of_int 0 then ret (repeat (loc d) (Z.to_nat size))
  else
    vals <- standard_normal (Z.to_nat size) ;;
    ret (map (fun v => v * scale d + loc d) vals).

(** [sst.t(df).isf(q)], the inverse survival function of the central
    Student's t distribution, is a capability of the library: the
    simulation takes it as given.  (scipy returns NaN, and does not raise, on
    arguments outside its domain.) *)
Variable t_isf : Z -> num -> num.

(** ** The notebook *)

(** The parameter dictionary [prmtrs], with the four keys of the docstring:
    [{'n':16, 'mu':.3, 'sigma': 1., 'alpha': 0.05}].  [n] is a Python int
    (of a size numpy takes as an array length); the other three are
    floats. *)
Record Prmtrs : Type := {
  prm_n : Z;
  prm_mu : num;
  prm_sigma : num;
  prm_alpha : num
}.

(** [t_value_from_sample(sample)]. *)
Definition t_value_from_sample (sample : list num) : num :=
  let N := len sample in
  let sample_mean := np_mean sample in
  let sample_std := np_sqrt (np_var sample 1) in
  let t_val := sample_mean / (sample_std / np_sqrt (of_int N)) in
  t_val.

(** [confidence_interval(CI, **prmtrs)], which returns
    [(effect, lCI, uCI, t)]. *)
Definition confidence_interval (CI : num) (prmtrs : Prmtrs)
  : M (num * num * num * num) :=
  let n := prm_n prmtrs in
  let mu := prm_mu prmtrs in
  let alpha := prm_alpha prmtrs in
  let sigma := prm_sigma prmtrs in
  let df := (n - 1)%Z in
  let theta := mu * np_sqrt (of_int n) / sigma in
  let norv := sst_norm (of_int 0) sigma in
  let strv := t_isf df in
  let t_ci := strv ((of_int 1 - CI) / of_int 2) in
  let t_alph := strv alpha in
  vals <- norm_rvs norv n ;;
  let sample := map (fun v => v + mu) vals in
  let effect := np_mean sample in
  let std_error_data := np_std sample 1 in
  let std_error_mean := std_error_data / np_sqrt (of_int n) in
  let t := effect / std_error_mean in
  let CI_ := t_ci * std_error_mean in
  let lCI := effect - CI_ in
  let uCI := effect + CI_ in
  ret (effect, lCI, uCI, t).

(** [for i in range(count): s = body(i, s)], with [i] counted from [i0]. *)
Fixpoint for_range {S : Type} (i0 count : nat) (body : nat -> S -> M S)
    (s : S) : M S :=
  match count with
  | O => ret s
  | Datatypes.S count' =>
      s' <- body i0 s ;; for_range (Datatypes.S i0) count' body s'
  end.

(** The four arrays the simulation cell fills. *)
Record Arrays : Type := {
  arr_effect : list num;
  arr_lCI : list num;
  arr_uCI : list num;
  arr_t : list num
}.

(** The body of the cell's loop:
    [effect[i], lCI[i], uCI[i], t[i] = confidence_interval(CI=.95, **prmtrs)]. *)
Definition store_trial (CI : num) (prmtrs : Prmtrs) (i : nat) (a : Arrays)
  : M Arrays :=
  r <- confidence_interval CI prmtrs ;;
  let '(effect, lCI, uCI, t) := r in
  ret {| arr_effect := setitem (arr_effect a) i effect;
         arr_lCI := setitem (arr_lCI a) i lCI;
         arr_uCI := setitem (arr_uCI a) i uCI;
         arr_t := setitem (arr_t a) i t |}.

(** The allocation and the loop of the simulation cell. *)
Definition simulate_trials (CI : num) (prmtrs : Prmtrs) (Nexp : nat)
  : M Arrays :=
  let zeros := {| arr_effect := np_zeros Nexp; arr_lCI := np_zeros Nexp;
                  arr_uCI := np_zeros Nexp; arr_t := np_zeros Nexp |} in
  for_range 0 Nexp (store_trial CI prmtrs) zeros.

(** What the simulation cell leaves in the notebook's namespace. *)
Record Experiments : Type := {
  arrays : Arrays;
  average_t : num;
  t_alpha : num;
  detect : list bool;
  number_of_detection : Z
}.

(** The end of the simulation cell, after the loop:
    [t_alpha = sst.t(prmtrs['n']-1).isf(alpha)], [detect = t>t_alpha],
    [detect.sum()].  [alpha] is the notebook's global of that name (0.05,
    the value also stored under [prmtrs['alpha']]). *)
Definition detect_trials (alpha : num) (prmtrs : Prmtrs) (a : Arrays)
  : Experiments :=
  let t_alpha := t_isf (prm_n prmtrs - 1) alpha in
  let detect := np_gt (arr_t a) t_alpha in
  {| arrays := a;
     average_t := np_mean (arr_t a);
     t_alpha := t_alpha;
     detect := detect;
     number_of_detection := np_count detect |}.

(** The simulation cell: [Nexp] experiments, then the detections. *)
Definition simulate (alpha CI : num) (prmtrs : Prmtrs) (Nexp : nat)
  : M Experiments :=
  a <- simulate_trials CI prmtrs Nexp ;;
  ret (detect_trials alpha prmtrs a).

(** What the report cell prints. *)
Record Report : Type := {
  mean_effect : num;
  mean_detected_effect : num;
  lower_above_mu_detected : Z;
  upper_below_mu_detected : Z;
  not_in_CI : Z;
  detections : Z;
  percentage_detected : num;
  lower_above_mu : Z;
  upper_below_mu : Z;
  percentage : num
}.

(** The report cell, on the names the simulation cell defined. *)
Definition report (prmtrs : Prmtrs) (Nexp : nat) (x : Experiments)
  : Report :=
  let effect := arr_effect (arrays x) in
  let lCI := arr_lCI (arrays x) in
  let uCI := arr_uCI (arrays x) in
  let detect := detect x in
  let mu := prm_mu prmtrs in
  let not_in_CI :=
    (np_count (np_lt (np_select uCI detect) mu)
     + np_count (np_gt (np_select lCI detect) mu))%Z in
  {| mean_effect := np_mean effect;
     mean_detected_effect := np_mean (np_select effect detect);
     lower_above_mu_detected := np_count (np_gt (np_select lCI detect) mu);
     upper_below_mu_detected := np_count (np_lt (np_select uCI detect) mu);
     not_in_CI := not_in_CI;
     detections := np_count detect;
     percentage_detected := of_int not_in_CI / of_int (np_count detect);
     lower_above_mu := np_count (np_gt lCI mu);
     upper_below_mu := np_count (np_lt uCI mu);
     percentage :=
       of_int (np_count (np_gt lCI mu) + np_count (np_lt uCI mu))
       / of_int (Z.of_nat Nexp) |}.

(** The notebook run from its top: [np.random.seed(s)], then the cells
    that come before the simulation ([earlier_cells], which draw samples of
    their own), then the simulation cell and the report cell. *)
Definition seeded_run (streams : Z -> nat -> num) (s : Z)
    (earlier_cells : M unit)
    (alpha CI : num) (prmtrs : Prmtrs) (Nexp : nat)
  : M (Experiments * Report) :=
  _ <- np_random_seed streams s ;;
  _ <- earlier_cells ;;
  x <- simulate alpha CI prmtrs Nexp ;;
  ret (x, report prmtrs Nexp x).

(** ** The specification's wording *)

(** The specification's valid [ExperimentParameters]: [n >= 2],
    [sigma > 0], and [alpha] and [CI] in the open interval (0, 1). *)
Definition valid_parameters (CI : num) (prmtrs : Prmtrs) : bool :=
  (2 <=? prm_n prmtrs)%Z
  && (prm_sigma prmtrs >? of_int 0)
  && ((of_int 0 <? prm_alpha prmtrs) && (prm_alpha prmtrs <? of_int 1))
  && ((of_int 0 <? CI) && (CI <? of_int 1)).

(** The specification's [runTrial]: the [n] samples are drawn from a normal
    distribution with mean [mu] and standard deviation [sigma]; the rest is
    [confidence_interval]'s. *)
Definition runTrial_spec (CI : num) (prmtrs : Prmtrs)
  : M (num * num * num * num) :=
  let n := prm_n prmtrs in
  sample <- norm_rvs (sst_norm (prm_mu prmtrs) (prm_sigma prmtrs)) n ;;
  let effect := np_mean sample in
  let std_error_mean := np_std sample 1 / np_sqrt (of_int n) in
  let t := effect / std_error_mean in
  let halfwidth :=
    t_isf (n - 1) ((of_int 1 - CI) / of_int 2) * std_error_mean in
  ret (effect, effect - halfwidth, effect + halfwidth, t).

(** The specification's streaming aggregate over the detected trials: a
    running sum of [effect] and a count, updated only when the trial is
    detected. *)
Definition fold_detected (effect : list num) (detect : list bool)
  : num * Z :=
  fold_left
    (fun (acc : num * Z) (ed : num * bool) =>
       if snd ed then (fst acc + fst ed, (snd acc + 1)%Z) else acc)
    (combine effect detect) (of_int 0, 0%Z).

End Simulation.

(** ** Data for the worked runs *)

(** Variates for the worked runs, cycled: eight draws of the size a standard
    normal generator gives. *)
Definition example_variates : list float :=
  [0.4967; -0.1383; 0.6477; 1.5230; -0.2342; -0.2341; 1.5792; 0.7674]%float.

Definition example_state : RandomState float :=
  {| variates := fun i => nth (i mod 8) example_variates 0%float;
     position := 0 |}.

(** A quantile function for the worked runs: the upper critical values of
    Student's t for 1, 2 and 9 degrees of freedom at the two tail
    probabilities the notebook uses (0.025 and 0.05), to three decimals as
    in a t table, and the two ends of the scale, [isf(0) = inf] and
    [isf(1) = -inf].  For a tail probability outside [0, 1] or 0 degrees of
    freedom it is NaN, as scipy answers outside the domain; the runs use no
    other degrees of freedom and no other tail probabilities. *)
Definition t_table (df : Z) (q : float) : float :=
  let critical (at_0025 at_005 : float) : float :=
    if (q =? 0)%float then infinity
    else if (q =? 1)%float then neg_infinity
    else if ((0 <? q) && (q <? 1))%float then
      if (q <? 0.04)%float then at_0025 else at_005
    else nan in
  match df with
  | 1%Z => critical 12.706%float 6.314%float
  | 2%Z => critical 4.303%float 2.920%float
  | 9%Z => critical 2.262%float 1.833%float
  | _ => nan
  end.

(** For one degree of freedom Student's t is the Cauchy distribution, whose
    inverse survival function is [tan (PI * (1/2 - q))]: a quantile function
    over the reals. *)
Definition cauchy_isf (df : Z) (q : R) : R := tan (PI * (1 / 2 - q)).

(** The docstring's parameters with [n = 1], [n = 2], [n = 3]. *)
Definition prmtrs_n1 : Prmtrs float :=
  {| prm_n := 1; prm_mu := 0.3%float; prm_sigma := 1%float;
     prm_alpha := 0.05%float |}.

Definition prmtrs_n2 : Prmtrs float :=
  {| prm_n := 2; prm_mu := 0.3%float; prm_sigma := 1%float;
     prm_alpha := 0.05%float |}.

Definition prmtrs_n3 : Prmtrs float :=
  {| prm_n := 3; prm_mu := 0.3%float; prm_sigma := 1%float;
     prm_alpha := 0.05%float |}.

(** The parameters of the worked runs with a stricter [alpha = 0.025], while
    the notebook's global [alpha] stays at 0.05. *)
Definition prmtrs_alpha025 : Prmtrs float :=
  {| prm_n := 3; prm_mu := 0.3%float; prm_sigma := 1%float;
     prm_alpha := 0.025%float |}.



(** Real parameters: two samples, no true effect. *)
Definition prmtrs_real : Prmtrs R :=
  {| prm_n := 2; prm_mu := 0%R; prm_sigma := 1%R; prm_alpha := (1 / 20)%R |}.

Definition real_state : RandomState R :=
  {| variates := fun i => INR i; position := 0 |}.

(** The results of [k] successive calls of [confidence_interval], in
    order: what the loop of the simulation cell stores. *)
Fixpoint trial_results {num : Type} `{Numeric num} (t_isf : Z -> num -> num)
    (CI : num) (prmtrs : Prmtrs num) (k : nat)
  : M num (list (num * num * num * num)) :=
  match k with
  | O => ret nil
  | S k' =>
      bind (confidence_interval t_isf CI prmtrs) (fun r =>
      bind (trial_results t_isf CI prmtrs k') (fun rs =>
      ret (r :: rs)))
  end.

(** The simulation cell run on the worked data: two experiments of three
    samples each. *)
Definition example_experiments : Experiments float :=
  Eval vm_compute in
    match
      fst (simulate t_table 0.05%float 0.95%float prmtrs_n3 2 example_state)
    with
    | Returned x => x
    | Raised _ => detect_trials t_table 0.05%float prmtrs_n3
                    (Build_Arrays nil nil nil nil)
    end.

(** Three experiments over the reals, the first and the last detected. *)
Definition real_experiments : Experiments R :=
  {| arrays := {| arr_effect := [1; 2; 4]%R; arr_lCI := [0; 1; 3]%R;
                  arr_uCI := [2; 3; 5]%R; arr_t := [3; 1; 5]%R |};
     average_t := 3%R;
     t_alpha := 2%R;
     detect := [true; false; true];
     number_of_detection := 2 |}.

(** Three experiments in float64, the first and the last detected; [e] is
    the effect of the one that is not. *)
Definition float_experiments (e : float) : Experiments float :=
  {| arrays := {| arr_effect := [0.5; e; 0.75]%float;
                  arr_lCI := [0.25; -1; 0.5]%float;
                  arr_uCI := [0.75; 1; 1]%float;
                  arr_t := [4; 0.5; 6]%float |};
     average_t := 3.5%float;
     t_alpha := 2.92%float;
     detect := [true; false; true];
     number_of_detection := 2 |}.

(** The four components of a returned tuple, and the arrays that hold a
    list of tuples component by component. *)
Definition result_effect {num : Type} (r : num * num * num * num) : num :=
  fst (fst (fst r)).

Definition result_lCI {num : Type} (r : num * num * num * num) : num :=
  snd (fst (fst r)).

Definition result_uCI {num : Type} (r : num * num * num * num) : num :=
  snd (fst r).

Definition result_t {num : Type} (r : num * num * num * num) : num :=
  snd r.

Definition arrays_of_results {num : Type}
    (rs : list (num * num * num * num)) : Arrays num :=
  {| arr_effect := map result_effect rs;
     arr_lCI := map result_lCI rs;
     arr_uCI := map result_uCI rs;
     arr_t := map result_t rs |}.

(** ** The other cells of the notebook *)

Section OtherCells.

Variable num : Type.
Context `{Numeric num}.

Local Open Scope num_scope.

Notation "x <- c ;; k" := (bind c (fun x => k))
  (at level 61, c at next level, right associativity).

(** [sst.t.sf(x, df=df)], the survival function of Student's t, is the
    library's, as [t_isf] is. *)
Variable t_sf : Z -> num -> num.

(** A line the experiments cell prints: [t_val], [p_val], and [signif],
    the number of stars. *)
Record Row : Type := {
  row_t_val : num;
  row_p_val : num;
  row_signif : Z
}.

(** The body of the loop of the experiments cell:
    [sample = distrib.rvs(size=(sample_size,))], the t and p values,
    [signif = int(p_val <= alpha)], the printed line, and
    [effect_size.append(sample.mean())] under [if signif].  The state is
    what was printed so far and [effect_size]. *)
Definition significance_trial (distrib : norm_frozen num) (sample_size : Z)
    (alpha : num) (idx : nat) (s : list Row * list num)
  : M num (list Row * list num) :=
  sample <- norm_rvs distrib sample_size ;;
  let t_val := t_value_from_sample sample in
  let p_val := t_sf (sample_size - 1) (t_value_from_sample sample) in
  let signif := Z.b2z (p_val <=? alpha) in
  let printed :=
    fst s ++ [{| row_t_val := t_val; row_p_val := p_val;
                 row_signif := signif |}] in
  let effect_size :=
    if (signif =? 0)%Z then snd s else snd s ++ [np_mean sample] in
  ret (printed, effect_size).

(** The experiments cell: [effect_size = []] and the loop over
    [range(nb_of_experiments)]. *)
Definition significance_experiments (distrib : norm_frozen num)
    (sample_size : Z) (nb_of_experiments : nat) (alpha : num)
  : M num (list Row * list num) :=
  for_range 0 nb_of_experiments
    (significance_trial distrib sample_size alpha) ([], []).

(** What a line printed for a sample of [sample_size] shows: the p value
    is the survival function at the t value, and the line is starred
    exactly when the p value is at most [alpha]. *)
Definition row_ok (sample_size : Z) (alpha : num) (r : Row) : Prop :=
  row_p_val r = t_sf (sample_size - 1) (row_t_val r)
  /\ row_signif r = Z.b2z (row_p_val r <=? alpha).

(** The number of stars printed. *)
Definition stars (rows : list Row) : Z :=
  fold_right Z.add 0%Z (map row_signif rows).

(** The cell after it:
    [np.asanyarray(effect_size).mean(), np.asanyarray(effect_size).std()]. *)
Definition effect_size_summary (effect_size : list num) : num * num :=
  (np_mean effect_size, np_std effect_size 0).

(** [np.arange(k)] for an int [k]. *)
Definition np_arange (k : Z) : list Z :=
  map Z.of_nat (seq 0 (Z.to_nat k)).

(** [np.ones((size,))]. *)
Definition np_ones (size : nat) : list num := repeat (of_int 1) size.

(** [np.linspace(start, stop, num)] (with the endpoint): [num] values,
    [i * step + start] with [step = (stop - start) / (num - 1)], the last
    one set to [stop]. *)
Definition np_linspace (start stop : num) (num_ : nat) : list num :=
  let div := (Z.of_nat num_ - 1)%Z in
  let delta := stop - start in
  let y := map (fun i => of_int (Z.of_nat i)) (seq 0 num_) in
  let y :=
    if (0 <? div)%Z then
      let step := delta / of_int div in
      if step =? of_int 0 then map (fun v => v / of_int div * delta) y
      else map (fun v => v * step) y
    else map (fun v => v * delta) y in
  let y := map (fun v => v + start) y in
  if (1 <? num_)%nat then setitem y (num_ - 1) stop else y.

(** Python's [zip] of three lists. *)
Fixpoint zip3 {A B C : Type} (a : list A) (b : list B) (c : list C)
  : list (A * B * C) :=
  match a, b, c with
  | x :: a', y :: b', z :: c' => (x, y, z) :: zip3 a' b' c'
  | _, _, _ => []
  end.

(** [a / b] of two arrays of the same length, element by element. *)
Fixpoint np_divide (a b : list num) : list num :=
  match a, b with
  | x :: a', y :: b' => x / y :: np_divide a' b'
  | _, _ => []
  end.

(** The triples the Cohen's d cell formats, for a tuple [muse]:
    [zip(sigmas, muse, np.asarray(muse)/sigmas)] with
    [sigmas = np.linspace(1.,.5,len(muse))]. *)
Definition cohen_values (muse : list num) : list (num * num * num) :=
  let sigmas :=
    np_linspace (of_int 1) (of_int 1 / of_int 2) (length muse) in
  zip3 sigmas muse (np_divide muse sigmas).

(** The Cohen's d cell: one string per triple; [fmt] is the ["%3.2f"]
    formatting of the three numbers. *)
Definition cohenstr (fmt : num -> num -> num -> String.string)
    (muse : list num) : list String.string :=
  map (fun smc => fmt (fst (fst smc)) (snd (fst smc)) (snd smc))
    (cohen_values muse).

(** [plt.plot(x1, y1, fmt1, x2, y2, fmt2, ...)]: a [ValueError] when an [x]
    and its [y] differ in length, otherwise one line per pair. *)
Definition plt_plot (series : list (list Z * list num)) : Outcome nat :=
  if forallb (fun xy => (length (fst xy) =? length (snd xy))%nat) series
  then Returned (length series)
  else Raised ValueError.

(** The plot cell, on the names the simulation cell defined: the printed
    ratio [(lCI > mu).sum() / (1.*detect.sum())] and the four lines drawn
    over [xd = np.arange(detect.sum())]. *)
Definition plot_cell (prmtrs : Prmtrs num) (Nexp : nat)
    (x : Experiments num) : Outcome (num * nat) :=
  let effect := arr_effect (arrays x) in
  let lCI := arr_lCI (arrays x) in
  let uCI := arr_uCI (arrays x) in
  let detect := detect x in
  let mu := prm_mu prmtrs in
  let xs := np_arange (Z.of_nat Nexp) in
  let xd := np_arange (np_count detect) in
  let mu_line := map (fun v => v * mu) (np_ones Nexp) in
  let ratio :=
    of_int (np_count (np_gt lCI mu))
    / (of_int 1 * of_int (np_count detect)) in
  match plt_plot [(xd, np_select lCI detect);
                  (xd, np_select effect detect);
                  (xd, np_select uCI detect);
                  (xd, np_select mu_line detect)] with
  | Returned lines => Returned (ratio, lines)
  | Raised e => Raised e
  end.

End OtherCells.

(** For one degree of freedom the survival function of Student's t is the
    Cauchy one, [1/2 - atan x / PI]. *)
Definition cauchy_sf (df : Z) (x : R) : R := (1 / 2 - atan x / PI)%R.

(** ** The comparison laws in both number systems *)

Lemma SFcompare_Lt_Gt (x y : spec_float) :
  SFcompare x y = Some Lt -> SFcompare y x = Some Gt.
Proof.
  destruct x as [sx|sx| |sx mx ex], y as [sy|sy| |sy my ey]; cbn;
    try destruct sx; try destruct sy; try discriminate; try reflexivity.
  all: rewrite (Z.compare_antisym ey ex);
    destruct (Z.compare ey ex); cbn; try discriminate; try reflexivity;
    rewrite !Pos.compare_cont_spec; cbn;
    rewrite (Pos.compare_antisym mx my);
    destruct (Pos.compare mx my); cbn; intros; try discriminate; reflexivity.
Qed.

#[export] Instance float64_laws : NumericLaws float.
Proof.
  split; intros x y; cbn.
  - rewrite FloatAxioms.ltb_spec, FloatAxioms.leb_spec. unfold SFltb, SFleb.
    destruct (SFcompare (Prim2SF x) (Prim2SF y)) as [[ | | ]|];
      intros; try discriminate; reflexivity.
  - rewrite FloatAxioms.ltb_spec, FloatAxioms.leb_spec. unfold SFltb, SFleb.
    destruct (SFcompare (Prim2SF y) (Prim2SF x)) as [[ | | ]|] eqn:E;
      try reflexivity.
    apply SFcompare_Lt_Gt in E. rewrite E. discriminate.
Qed.

Lemma Rltb_true (x y : R) : Rltb x y = true <-> (x < y)%R.
Proof. unfold Rltb. destruct (Rlt_dec x y); split; intros; (discriminate || lra || reflexivity). Qed.

Lemma Rleb_true (x y : R) : Rleb x y = true <-> (x <= y)%R.
Proof. unfold Rleb. destruct (Rle_dec x y); split; intros; (discriminate || lra || reflexivity). Qed.

Lemma Rltb_false (x y : R) : Rltb x y = false <-> (y <= x)%R.
Proof. unfold Rltb. destruct (Rlt_dec x y); split; intros; (discriminate || lra || reflexivity). Qed.

Lemma Reqb_true (x y : R) : Reqb x y = true <-> x = y.
Proof. unfold Reqb. destruct (Req_dec_T x y); split; intros; (discriminate || lra || reflexivity || contradiction). Qed.

#[export] Instance real_laws : NumericLaws R.
Proof.
  split; intros x y; cbn.
  - rewrite Rltb_true, Rleb_true. lra.
  - rewrite Rleb_true, Rltb_false. lra.
Qed.

(** ** Summation *)

Section Summation.

Variable num : Type.
Context `{Numeric num}.

Local Open Scope num_scope.

(** A long array is split in two non-empty parts. *)
Lemma split_point (n : nat) :
  (128 < n)%nat -> (0 < n / 2 - (n / 2) mod 8 < n)%nat.
Proof.
  intros Hn.
  pose proof (Nat.div_mod_eq n 2) as D2.
  pose proof (Nat.mod_upper_bound n 2 ltac:(discriminate)) as M2.
  pose proof (Nat.mod_upper_bound (n / 2) 8 ltac:(discriminate)) as M8.
  lia.
Qed.

(** The sum does not depend on the depth allowed, once that covers the
    length of the array: [np_sum] never runs out of it. *)
Lemma pairwise_sum_depth (d1 d2 : nat) (a : list num) :
  (length a <= d1)%nat -> (length a <= d2)%nat ->
  pairwise_sum d1 a = pairwise_sum d2 a.
Proof.
  revert d2 a.
  induction d1 as [ | d1 IH]; intros d2 a H1 H2.
  - destruct a; [ | cbn in H1; lia ]. destruct d2; reflexivity.
  - destruct d2 as [ | d2].
    + destruct a; [ reflexivity | cbn in H2; lia ].
    + cbn [pairwise_sum].
      destruct (length a <? 8)%nat; [ reflexivity | ].
      destruct (length a <=? 128)%nat eqn:E; [ reflexivity | ].
      apply Nat.leb_gt in E.
      pose proof (split_point E) as Hs.
      rewrite (IH d2 (firstn _ a)), (IH d2 (skipn _ a)); try reflexivity;
        rewrite ?length_firstn, ?length_skipn; lia.
Qed.

(** Fewer than 8 elements are added from left to right. *)
Lemma np_sum_short (a : list num) :
  (length a < 8)%nat -> np_sum a = of_int 0 + fold_left add a (of_int 0).
Proof.
  intros Hlen. unfold np_sum.
  destruct a as [ | v a]; [ reflexivity | ].
  cbn [pairwise_sum length].
  apply Nat.ltb_lt in Hlen. cbn [length] in Hlen. rewrite Hlen. reflexivity.
Qed.

End Summation.

(** Over the reals the order of the additions is immaterial: [np_sum] is
    the sum of the elements. *)
Section RealSummation.

Local Open Scope R_scope.

Lemma fold_left_Rplus_sum (a : list R) (s : R) :
  fold_left Rplus a s = s + fold_right Rplus 0 a.
Proof.
  revert s. induction a as [ | v a IH]; intros s; cbn [fold_left fold_right].
  - ring.
  - rewrite IH. ring.
Qed.

Lemma fold_right_Rplus_app (a b : list R) :
  fold_right Rplus 0 (a ++ b) = fold_right Rplus 0 a + fold_right Rplus 0 b.
Proof.
  induction a as [ | v a IH]; cbn [app fold_right]; [ ring | ].
  rewrite IH. ring.
Qed.

Lemma add_accumulators_length (r block : list R) :
  length (add_accumulators r block) = length r.
Proof.
  revert block. induction r as [ | x r IH]; intros [ | y block];
    cbn [add_accumulators length]; try reflexivity.
  rewrite IH. reflexivity.
Qed.

Lemma add_accumulators_sum (r block : list R) :
  (length block <= length r)%nat ->
  fold_right Rplus 0 (add_accumulators r block)
  = fold_right Rplus 0 r + fold_right Rplus 0 block.
Proof.
  revert block. induction r as [ | x r IH]; intros [ | y block] Hlen;
    cbn [add_accumulators fold_right length] in *; try ring; try lia.
  rewrite IH by lia. cbn [add real]. ring.
Qed.

Lemma accumulate_blocks_sum (blocks : nat) (r a : list R) :
  (8 <= length r)%nat ->
  let '(r', rest) := accumulate_blocks blocks r a in
  length r' = length r
  /\ fold_right Rplus 0 r' + fold_right Rplus 0 rest
     = fold_right Rplus 0 r + fold_right Rplus 0 a.
Proof.
  revert r a. induction blocks as [ | blocks IH]; intros r a Hr;
    cbn [accumulate_blocks].
  - split; reflexivity.
  - specialize (IH (add_accumulators r (firstn 8 a)) (skipn 8 a)).
    rewrite add_accumulators_length in IH. specialize (IH Hr).
    destruct (accumulate_blocks blocks (add_accumulators r (firstn 8 a))
                (skipn 8 a)) as [r' rest].
    destruct IH as [Hl Hsum]. split; [ exact Hl | ].
    rewrite Hsum, add_accumulators_sum
      by (rewrite length_firstn; lia).
    rewrite Rplus_assoc, <- fold_right_Rplus_app, firstn_skipn. reflexivity.
Qed.

Lemma add_tree_sum (r : list R) :
  length r = 8%nat -> add_tree r = fold_right Rplus 0 r.
Proof.
  intros Hlen.
  do 8 (destruct r as [ | ? r]; [ discriminate Hlen | ]).
  destruct r; [ | discriminate Hlen ].
  cbn [add_tree fold_right add real]. ring.
Qed.

Lemma pairwise_sum_real (depth : nat) (a : list R) :
  (length a <= depth)%nat -> pairwise_sum depth a = fold_right Rplus 0 a.
Proof.
  revert a. induction depth as [ | depth IH]; intros a Hlen.
  - destruct a; [ reflexivity | cbn in Hlen; lia ].
  - cbn [pairwise_sum].
    destruct (length a <? 8)%nat eqn:E8.
    + cbn [add of_int real]. rewrite fold_left_Rplus_sum. ring.
    + apply Nat.ltb_ge in E8.
      destruct (length a <=? 128)%nat eqn:E128.
      * pose proof (accumulate_blocks_sum (length a / 8 - 1)
                      (firstn 8 a) (skipn 8 a)) as Hacc.
        rewrite length_firstn, Nat.min_l in Hacc by exact E8.
        specialize (Hacc (Nat.le_refl 8)).
        destruct (accumulate_blocks (length a / 8 - 1) (firstn 8 a)
                    (skipn 8 a)) as [r rest].
        destruct Hacc as [Hl Hsum].
        cbn [add real]. rewrite fold_left_Rplus_sum, add_tree_sum by exact Hl.
        rewrite Hsum, <- fold_right_Rplus_app, firstn_skipn. reflexivity.
      * apply Nat.leb_gt in E128.
        pose proof (split_point E128) as Hs.
        rewrite !IH by (rewrite ?length_firstn, ?length_skipn; lia).
        cbn [add real].
        rewrite <- fold_right_Rplus_app, firstn_skipn. reflexivity.
Qed.

Lemma np_sum_real (a : list R) : np_sum a = fold_right Rplus 0 a.
Proof.
  unfold np_sum. rewrite pairwise_sum_real by apply Nat.le_refl.
  cbn [add of_int real]. ring.
Qed.

End RealSummation.

(** ** One trial: [confidence_interval] *)

Section Trial.

Variable num : Type.
Context `{Numeric num}.
Variable t_isf : Z -> num -> num.

Local Open Scope num_scope.


Lemma norm_rvs_returns (d : norm_frozen num) (size : Z) (g : RandomState num) :
  (scale d >=? of_int 0) = true -> (0 <= size)%Z ->
  exists vals g',
    norm_rvs d size g = (Returned vals, g')
    /\ length vals = Z.to_nat size
    /\ variates g' = variates g
    /\ (position g' = position g
        \/ position g' = (position g + Z.to_nat size)%nat).
Proof.
  intros Hs Hn. unfold norm_rvs. rewrite Hs. cbn.
  assert (Hlt : (size <? 0)%Z = false) by (apply Z.ltb_ge; exact Hn).
  rewrite Hlt.
  destruct (scale d =? of_int 0).
  - exists (repeat (loc d) (Z.to_nat size)), g. unfold ret.
    rewrite repeat_length. auto.
  - eexists _, _. unfold bind, standard_normal, ret. cbn.
    split; [ reflexivity | ].
    rewrite !length_map, length_seq. auto.
Qed.

(** A call is the sampler's call followed by arithmetic on its result. *)
Lemma confidence_interval_run (CI : num) (prmtrs : Prmtrs num)
    (g : RandomState num) :
  confidence_interval t_isf CI prmtrs g =
  match norm_rvs (sst_norm (of_int 0) (prm_sigma prmtrs)) (prm_n prmtrs) g with
  | (Returned vals, g') =>
      let sample := map (fun v => v + prm_mu prmtrs) vals in
      let effect := np_mean sample in
      let std_error_mean :=
        np_std sample 1 / np_sqrt (of_int (prm_n prmtrs)) in
      let CI_ :=
        t_isf (prm_n prmtrs - 1) ((of_int 1 - CI) / of_int 2)
        * std_error_mean in
      (Returned (effect, effect - CI_, effect + CI_, effect / std_error_mean),
       g')
  | (Raised e, g') => (Raised e, g')
  end.
Proof. reflexivity. Qed.


Lemma confidence_interval_returns (CI : num) (prmtrs : Prmtrs num)
    (g : RandomState num) :
  (prm_sigma prmtrs >=? of_int 0) = true -> (0 <= prm_n prmtrs)%Z ->
  exists r g', confidence_interval t_isf CI prmtrs g = (Returned r, g').
Proof.
  intros Hs Hn. rewrite confidence_interval_run.
  destruct (norm_rvs_returns (sst_norm (of_int 0) (prm_sigma prmtrs)) g Hs Hn)
    as (vals & g' & E & _).
  rewrite E. eexists _, _. reflexivity.
Qed.



(** C6 (amended).  With [sigma > 0], [n = 2] does not raise, and neither
    does [n = 1]: both calls return a tuple. *)
Theorem confidence_interval_n2_n1_return `{!NumericLaws num} :
  forall (CI mu sigma alpha : num) (n : Z) (g : RandomState num),
    (sigma >? of_int 0) = true ->
    n = 2%Z \/ n = 1%Z ->
    exists r g',
      confidence_interval t_isf CI
        {| prm_n := n; prm_mu := mu; prm_sigma := sigma; prm_alpha := alpha |}
        g
      = (Returned r, g').
Proof.
  intros CI mu sigma alpha n g Hs Hn.
  apply confidence_interval_returns; cbn.
  - apply ltb_leb. exact Hs.
  - lia.
Qed.

(** C10.  The returned tuple does not depend on [alpha]: two calls that
    differ only in [prmtrs['alpha']] return the same outcome and leave the
    generator in the same state. *)
Theorem confidence_interval_ignores_alpha :
  forall (CI mu sigma alpha1 alpha2 : num) (n : Z) (g : RandomState num),
    confidence_interval t_isf CI
      {| prm_n := n; prm_mu := mu; prm_sigma := sigma; prm_alpha := alpha1 |} g
    = confidence_interval t_isf CI
        {| prm_n := n; prm_mu := mu; prm_sigma := sigma; prm_alpha := alpha2 |} g.
Proof.
  intros. rewrite !confidence_interval_run. reflexivity.
Qed.

End Trial.

(** ** The statistics of a trial *)

Section Statistics.

Variable num : Type.
Context `{Numeric num}.
Variable t_isf : Z -> num -> num.

Local Open Scope num_scope.

(** With [ddof = 1] the divisor of [np.var] is [len - 1] on a non-empty
    array. *)
Lemma np_var_bessel (a : list num) :
  (1 <= len a)%Z ->
  np_var a 1 =
  np_sum (map (fun v => (v - np_mean a) * (v - np_mean a)) a)
  / of_int (len a - 1).
Proof.
  intros Hlen. unfold np_var. cbv zeta. rewrite map_map.
  rewrite Z.max_l by lia. reflexivity.
Qed.

(** The formulas of a call, in every number system, with numpy's sums: for
    the sample it drew ([n] values, each a draw plus [mu]), [effect] is
    [np_sum] of the sample divided by [n]; the standard deviation is the
    square root of [np_sum] of the squared deviations divided by [n - 1];
    [t] is [effect] divided by the standard error, the value
    [t_value_from_sample] computes. *)
Lemma confidence_interval_sample_formulas :
  forall (CI : num) (prmtrs : Prmtrs num) (g : RandomState num),
    (1 <= prm_n prmtrs)%Z ->
    (prm_sigma prmtrs >=? of_int 0) = true ->
    exists (vals : list num) (g' : RandomState num)
           (effect lCI uCI t : num),
      let n := prm_n prmtrs in
      let sample := map (fun v => v + prm_mu prmtrs) vals in
      let squares := map (fun v => (v - effect) * (v - effect)) sample in
      let std := sqrt (np_sum squares / of_int (n - 1)) in
      let std_error := std / sqrt (of_int n) in
      norm_rvs (sst_norm (of_int 0) (prm_sigma prmtrs)) n g
        = (Returned vals, g')
      /\ confidence_interval t_isf CI prmtrs g
         = (Returned (effect, lCI, uCI, t), g')
      /\ len sample = n
      /\ effect = np_sum sample / of_int n
      /\ np_std sample 1 = std
      /\ t = effect / std_error
      /\ t = t_value_from_sample sample.
Proof.
  intros CI prmtrs g Hn Hs.
  assert (Hn0 : (0 <= prm_n prmtrs)%Z) by lia.
  destruct (norm_rvs_returns (sst_norm (of_int 0) (prm_sigma prmtrs)) g Hs Hn0)
    as (vals & g' & E & Hlen & _).
  set (sample := map (fun v => v + prm_mu prmtrs) vals).
  assert (Hl : len sample = prm_n prmtrs).
  { unfold len, sample. rewrite length_map, Hlen. lia. }
  exists vals, g', (np_mean sample).
  eexists _, _, _. cbv zeta. fold sample.
  split; [ exact E | ].
  split; [ rewrite confidence_interval_run, E; cbv zeta; fold sample; reflexivity | ].
  split; [ exact Hl | ].
  assert (Hstd : np_std sample 1 =
                 sqrt (np_sum (map (fun v => (v - np_mean sample)
                                             * (v - np_mean sample)) sample)
                       / of_int (prm_n prmtrs - 1))).
  { unfold np_std. rewrite np_var_bessel by lia. rewrite Hl. reflexivity. }
  split; [ unfold np_mean; rewrite Hl; reflexivity | ].
  split; [ exact Hstd | ].
  split.
  - rewrite <- Hstd. reflexivity.
  - unfold t_value_from_sample. cbv zeta. rewrite Hl. reflexivity.
Qed.

End Statistics.

(** C5.  A call with [n >= 1] and a scale the sampler takes returns, and
    for the sample it drew ([n] values, each a draw plus [mu]): [effect] is
    the sample mean; the standard deviation is the square root of the sum
    of squared deviations divided by [n - 1] (Bessel's correction); the
    standard error is that deviation divided by [sqrt n]; [t] is [effect]
    divided by the standard error, the value [t_value_from_sample]
    computes.  Over the reals the two sums are the sums of the elements
    ([fold_right Rplus 0]); in float64 they are numpy's pairwise sums, with
    every other operation rounded as written. *)
Theorem confidence_interval_sample_statistics :
  (forall (t_isf : Z -> R -> R) (CI : R) (prmtrs : Prmtrs R)
          (g : RandomState R),
      (1 <= prm_n prmtrs)%Z ->
      (0 <= prm_sigma prmtrs)%R ->
      exists (vals : list R) (g' : RandomState R) (effect lCI uCI t : R),
        let n := prm_n prmtrs in
        let sample := map (fun v => v + prm_mu prmtrs)%R vals in
        let squares :=
          map (fun v => (v - effect) * (v - effect))%R sample in
        let std :=
          R_sqrt.sqrt (fold_right Rplus 0%R squares / IZR (n - 1)) in
        let std_error := (std / R_sqrt.sqrt (IZR n))%R in
        norm_rvs (sst_norm 0%R (prm_sigma prmtrs)) n g = (Returned vals, g')
        /\ confidence_interval t_isf CI prmtrs g
           = (Returned (effect, lCI, uCI, t), g')
        /\ len sample = n
        /\ effect = (fold_right Rplus 0%R sample / IZR n)%R
        /\ np_std sample 1 = std
        /\ t = (effect / std_error)%R
        /\ t = t_value_from_sample sample)
  /\ (forall (t_isf : Z -> float -> float) (CI : float)
             (prmtrs : Prmtrs float) (g : RandomState float),
         (1 <= prm_n prmtrs)%Z ->
         (0 <=? prm_sigma prmtrs)%float = true ->
         exists (vals : list float) (g' : RandomState float)
                (effect lCI uCI t : float),
           let n := prm_n prmtrs in
           let sample := map (fun v => v + prm_mu prmtrs)%float vals in
           let squares :=
             map (fun v => (v - effect) * (v - effect))%float sample in
           let std :=
             PrimFloat.sqrt (np_sum squares / float_of_int (n - 1))%float in
           let std_error := (std / PrimFloat.sqrt (float_of_int n))%float in
           norm_rvs (sst_norm 0%float (prm_sigma prmtrs)) n g
           = (Returned vals, g')
           /\ confidence_interval t_isf CI prmtrs g
              = (Returned (effect, lCI, uCI, t), g')
           /\ len sample = n
           /\ effect = (np_sum sample / float_of_int n)%float
           /\ np_std sample 1 = std
           /\ t = (effect / std_error)%float
           /\ t = t_value_from_sample sample).
Proof.
  split.
  - intros t_isf CI prmtrs g Hn Hs.
    assert (Hs' : leb (of_int 0) (prm_sigma prmtrs) = true)
      by (cbn; apply Rleb_true; exact Hs).
    destruct (confidence_interval_sample_formulas t_isf CI prmtrs g Hn Hs')
      as (vals & g' & effect & lCI & uCI & t & H).
    exists vals, g', effect, lCI, uCI, t.
    cbv zeta in H |- *. rewrite !np_sum_real in H. exact H.
  - intros t_isf CI prmtrs g Hn Hs.
    exact (confidence_interval_sample_formulas t_isf CI prmtrs g Hn Hs).
Qed.

(** ** A trial over the real numbers *)

Section RealTrial.

Variable t_isf : Z -> R -> R.

Local Open Scope R_scope.

(** Sampling around [mu] is sampling around 0 and adding [mu]. *)
Lemma norm_rvs_shift (mu sigma : R) (n : Z) (g : RandomState R) :
  norm_rvs (sst_norm mu sigma) n g =
  match norm_rvs (sst_norm 0 sigma) n g with
  | (Returned vals, g') => (Returned (map (fun v => v + mu) vals), g')
  | (Raised e, g') => (Raised e, g')
  end.
Proof.
  unfold norm_rvs. cbn [scale loc].
  destruct (negb (leb (of_int 0) sigma)); [ reflexivity | ].
  destruct (n <? 0)%Z; [ reflexivity | ].
  destruct (eqb sigma (of_int 0)).
  - unfold ret. rewrite map_repeat. rewrite Rplus_0_l. reflexivity.
  - unfold bind, standard_normal, ret. cbn.
    rewrite !map_map. do 2 f_equal.
    apply map_ext. intros i. ring.
Qed.

(** Over the reals, [confidence_interval], which draws around 0 and adds
    [mu], is the specification's [runTrial], which draws around [mu]. *)
Lemma confidence_interval_is_runTrial_spec_real :
  forall (CI : R) (prmtrs : Prmtrs R) (g : RandomState R),
    confidence_interval t_isf CI prmtrs g = runTrial_spec t_isf CI prmtrs g.
Proof.
  intros CI prmtrs g. rewrite confidence_interval_run.
  unfold runTrial_spec, bind.
  rewrite (norm_rvs_shift (prm_mu prmtrs) (prm_sigma prmtrs)).
  cbn [of_int real].
  destruct (norm_rvs (sst_norm 0 (prm_sigma prmtrs)) (prm_n prmtrs) g)
    as [[vals | e] g']; reflexivity.
Qed.

Lemma valid_parameters_real (CI : R) (prmtrs : Prmtrs R) :
  valid_parameters CI prmtrs = true <->
  (2 <= prm_n prmtrs)%Z /\ 0 < prm_sigma prmtrs
  /\ 0 < prm_alpha prmtrs < 1 /\ 0 < CI < 1.
Proof.
  unfold valid_parameters. rewrite !andb_true_iff. cbn.
  rewrite !Rltb_true, Z.leb_le. tauto.
Qed.

(** The standard error of the mean is not negative. *)
Lemma std_error_mean_nonneg (sample : list R) (n : Z) :
  (1 <= n)%Z -> 0 <= np_std sample 1 / R_sqrt.sqrt (IZR n).
Proof.
  intros Hn. unfold np_std. cbn [sqrt real].
  assert (0 < IZR n) by (apply IZR_lt; lia).
  assert (0 < R_sqrt.sqrt (IZR n)) by (apply sqrt_lt_R0; assumption).
  assert (0 <= R_sqrt.sqrt (np_var sample 1)) by apply sqrt_pos.
  apply Rmult_le_pos; [ assumption | ].
  left. apply Rinv_0_lt_compat. assumption.
Qed.

(** What the theorem below takes from the library: the upper quantiles of
    the central Student's t at tail probabilities below one half are
    positive (the distribution is symmetric about 0). *)
Hypothesis t_isf_upper_tail :
  forall (df : Z) (q : R), (1 <= df)%Z -> 0 < q < 1 / 2 -> 0 < t_isf df q.


End RealTrial.

(** ** Arrays written by index *)

Section Setitem.

Variable A : Type.

Lemma setitem_length (a : list A) (i : nat) (v : A) :
  length (setitem a i v) = length a.
Proof.
  revert i. induction a as [ | x a IH]; intros [ | i]; cbn; auto.
Qed.

Lemma setitem_firstn (a : list A) (i : nat) (v : A) :
  i < length a -> firstn (S i) (setitem a i v) = firstn i a ++ [v].
Proof.
  revert i. induction a as [ | x a IH]; intros [ | i] Hi; cbn in *; try lia.
  - reflexivity.
  - f_equal. apply IH. lia.
Qed.

Lemma setitem_skipn (a : list A) (i k : nat) (v : A) :
  i < k -> skipn k (setitem a i v) = skipn k a.
Proof.
  revert i k. induction a as [ | x a IH]; intros i k Hik.
  - destruct i; reflexivity.
  - destruct k as [ | k]; [ lia | ].
    destruct i as [ | i]; cbn; [ reflexivity | ].
    apply IH. lia.
Qed.

End Setitem.

(** ** The simulation loop *)

Section Loop.

Variable num : Type.
Context `{Numeric num}.
Variable t_isf : Z -> num -> num.
Variables (CI : num) (prmtrs : Prmtrs num).

Local Open Scope num_scope.

Lemma trial_results_length (k : nat) (g g' : RandomState num)
    (rs : list (num * num * num * num)) :
  trial_results t_isf CI prmtrs k g = (Returned rs, g') -> length rs = k.
Proof.
  revert g g' rs. induction k as [ | k IH]; intros g g' rs; cbn.
  - unfold ret. intros E. inversion E. reflexivity.
  - unfold bind at 1.
    destruct (confidence_interval t_isf CI prmtrs g) as [[r | e] g1];
      [ | discriminate ].
    unfold bind.
    destruct (trial_results t_isf CI prmtrs k g1) as [[rs1 | e] g2] eqn:E1;
      [ | discriminate ].
    unfold ret. intros E. inversion E. cbn. f_equal. eapply IH. exact E1.
Qed.

(** More trials extend the results of fewer. *)
Lemma trial_results_app (k1 k2 : nat) (g : RandomState num) :
  trial_results t_isf CI prmtrs (k1 + k2) g =
  match trial_results t_isf CI prmtrs k1 g with
  | (Returned rs1, g1) =>
      match trial_results t_isf CI prmtrs k2 g1 with
      | (Returned rs2, g2) => (Returned (rs1 ++ rs2), g2)
      | (Raised e, g2) => (Raised e, g2)
      end
  | (Raised e, g1) => (Raised e, g1)
  end.
Proof.
  revert g. induction k1 as [ | k1 IH]; intros g; cbn.
  - unfold ret.
    destruct (trial_results t_isf CI prmtrs k2 g) as [[rs2 | e] g2];
      reflexivity.
  - unfold bind at 1 3.
    destruct (confidence_interval t_isf CI prmtrs g) as [[r | e] g1];
      [ | reflexivity ].
    unfold bind. rewrite IH.
    destruct (trial_results t_isf CI prmtrs k1 g1) as [[rs1 | e] g2];
      [ | reflexivity ].
    unfold ret.
    destruct (trial_results t_isf CI prmtrs k2 g2) as [[rs2 | e] g3];
      reflexivity.
Qed.

(** When the sampler takes the parameters, any number of trials return. *)
Lemma trial_results_return (k : nat) (g : RandomState num) :
  (prm_sigma prmtrs >=? of_int 0) = true -> (0 <= prm_n prmtrs)%Z ->
  exists rs g', trial_results t_isf CI prmtrs k g = (Returned rs, g').
Proof.
  intros Hs Hn. revert g. induction k as [ | k IH]; intros g; cbn.
  - eexists _, _. reflexivity.
  - destruct (confidence_interval_returns t_isf CI prmtrs g Hs Hn)
      as (r & g1 & E1).
    destruct (IH g1) as (rs & g2 & E2).
    unfold bind. rewrite E1, E2. eexists _, _. reflexivity.
Qed.

(** The loop, started at index [i0] on arrays long enough, overwrites the
    entries [i0 .. i0 + count - 1] with the results of [count] trials. *)
Lemma for_range_store_trial (count i0 : nat) (a : Arrays num)
    (g : RandomState num) :
  i0 + count <= length (arr_effect a) ->
  i0 + count <= length (arr_lCI a) ->
  i0 + count <= length (arr_uCI a) ->
  i0 + count <= length (arr_t a) ->
  for_range i0 count (store_trial t_isf CI prmtrs) a g =
  match trial_results t_isf CI prmtrs count g with
  | (Returned rs, g') =>
      (Returned
         {| arr_effect := firstn i0 (arr_effect a) ++ map result_effect rs
                          ++ skipn (i0 + count) (arr_effect a);
            arr_lCI := firstn i0 (arr_lCI a) ++ map result_lCI rs
                       ++ skipn (i0 + count) (arr_lCI a);
            arr_uCI := firstn i0 (arr_uCI a) ++ map result_uCI rs
                       ++ skipn (i0 + count) (arr_uCI a);
            arr_t := firstn i0 (arr_t a) ++ map result_t rs
                     ++ skipn (i0 + count) (arr_t a) |},
       g')
  | (Raised e, g') => (Raised e, g')
  end.
Proof.
  revert i0 a g. induction count as [ | count IH]; intros i0 a g H1 H2 H3 H4.
  - cbn. unfold ret. rewrite Nat.add_0_r. rewrite !firstn_skipn.
    destruct a; reflexivity.
  - cbn [for_range trial_results]. unfold bind at 1 2. unfold store_trial at 1.
    unfold bind at 1.
    destruct (confidence_interval t_isf CI prmtrs g) as [[r | e] g1];
      [ | reflexivity ].
    destruct r as [[[effect lCI] uCI] t]. unfold ret at 1.
    rewrite IH by (cbn; rewrite setitem_length; lia).
    unfold bind.
    destruct (trial_results t_isf CI prmtrs count g1) as [[rs | e] g2];
      [ | reflexivity ].
    unfold ret. cbn [arr_effect arr_lCI arr_uCI arr_t map result_effect
                     result_lCI result_uCI result_t fst snd].
    rewrite !setitem_firstn by lia.
    rewrite !setitem_skipn by lia.
    rewrite <- !app_assoc. cbn [app].
    replace (S i0 + count)%nat with (i0 + S count)%nat by lia. reflexivity.
Qed.

(** The loop of the simulation cell fills the arrays with the results of
    [Nexp] trials, in order. *)
Lemma simulate_trials_results (Nexp : nat) (g : RandomState num) :
  simulate_trials t_isf CI prmtrs Nexp g =
  match trial_results t_isf CI prmtrs Nexp g with
  | (Returned rs, g') => (Returned (arrays_of_results rs), g')
  | (Raised e, g') => (Raised e, g')
  end.
Proof.
  unfold simulate_trials.
  rewrite for_range_store_trial
    by (cbn; unfold np_zeros; rewrite repeat_length; lia).
  destruct (trial_results t_isf CI prmtrs Nexp g) as [[rs | e] g'];
    [ | reflexivity ].
  cbn [arr_effect arr_lCI arr_uCI arr_t firstn].
  unfold np_zeros. rewrite !skipn_all2 by (rewrite repeat_length; lia).
  rewrite !app_nil_r. reflexivity.
Qed.

End Loop.

(** ** Counting detections *)

Lemma np_count_from (b : list bool) (z : Z) :
  fold_left (fun acc d => (acc + Z.b2z d)%Z) b z = (z + np_count b)%Z.
Proof.
  unfold np_count. revert z. induction b as [ | d b IH]; intros z; cbn.
  - lia.
  - rewrite IH, (IH (Z.b2z d)). lia.
Qed.

Lemma np_count_cons (d : bool) (b : list bool) :
  np_count (d :: b) = (Z.b2z d + np_count b)%Z.
Proof. unfold np_count at 1. cbn. apply np_count_from. Qed.

Lemma np_count_app (b1 b2 : list bool) :
  np_count (b1 ++ b2) = (np_count b1 + np_count b2)%Z.
Proof.
  induction b1 as [ | d b1 IH]; cbn [app].
  - reflexivity.
  - rewrite !np_count_cons, IH. lia.
Qed.

Lemma np_count_bounds (b : list bool) :
  (0 <= np_count b <= len b)%Z.
Proof.
  unfold len. induction b as [ | d b IH].
  - cbn. lia.
  - rewrite np_count_cons. cbn [length]. destruct d; cbn [Z.b2z]; lia.
Qed.

(** With no [True] in the mask the selection is empty. *)
Lemma np_select_none (A : Type) (a : list A) (mask : list bool) :
  np_count mask = 0%Z -> np_select a mask = [].
Proof.
  revert a. induction mask as [ | d mask IH]; intros a Hc.
  - destruct a; reflexivity.
  - rewrite np_count_cons in Hc. pose proof (np_count_bounds mask) as Hb.
    destruct d; cbn [Z.b2z] in Hc; [ lia | ].
    destruct a as [ | v a]; [ reflexivity | ]. cbn. apply IH. lia.
Qed.

Section Aggregate.

Variable num : Type.
Context `{Numeric num}.
Variable t_isf : Z -> num -> num.

Local Open Scope num_scope.

Lemma np_gt_app (a1 a2 : list num) (s : num) :
  np_gt (a1 ++ a2) s = np_gt a1 s ++ np_gt a2 s.
Proof. unfold np_gt. apply map_app. Qed.

Lemma simulate_run (alpha CI : num) (prmtrs : Prmtrs num) (Nexp : nat)
    (g : RandomState num) :
  simulate t_isf alpha CI prmtrs Nexp g =
  match trial_results t_isf CI prmtrs Nexp g with
  | (Returned rs, g') =>
      (Returned (detect_trials t_isf alpha prmtrs (arrays_of_results rs)), g')
  | (Raised e, g') => (Raised e, g')
  end.
Proof.
  unfold simulate, bind. rewrite simulate_trials_results.
  destruct (trial_results t_isf CI prmtrs Nexp g) as [[rs | e] g'];
    reflexivity.
Qed.


(** C9.  When the sampler takes the parameters, the cell run for [Nexp]
    trials and run for [Nexp + more] trials from the same state both
    return; the number of detections is between 0 and the number of trials,
    and the longer run has at least the detections of the shorter. *)
Theorem number_of_detection_bounded_monotone :
  forall (alpha CI : num) (prmtrs : Prmtrs num) (Nexp more : nat)
         (g : RandomState num),
    (prm_sigma prmtrs >=? of_int 0) = true ->
    (0 <= prm_n prmtrs)%Z ->
    exists (x x' : Experiments num) (g1 g2 : RandomState num),
      simulate t_isf alpha CI prmtrs Nexp g = (Returned x, g1)
      /\ simulate t_isf alpha CI prmtrs (Nexp + more) g = (Returned x', g2)
      /\ (0 <= number_of_detection x <= Z.of_nat Nexp)%Z
      /\ (0 <= number_of_detection x' <= Z.of_nat (Nexp + more))%Z
      /\ (number_of_detection x <= number_of_detection x')%Z.
Proof.
  intros alpha CI prmtrs Nexp more g Hs Hn.
  destruct (trial_results_return t_isf CI prmtrs Nexp g Hs Hn)
    as (rs1 & g1 & E1).
  destruct (trial_results_return t_isf CI prmtrs more g1 Hs Hn)
    as (rs2 & g2 & E2).
  pose proof (trial_results_length _ _ _ _ _ E1) as L1.
  pose proof (trial_results_length _ _ _ _ _ E2) as L2.
  eexists _, _, g1, g2.
  rewrite !simulate_run, trial_results_app, E1, E2.
  split; [ reflexivity | split; [ reflexivity | ] ].
  cbn [number_of_detection detect_trials arrays_of_results arr_t].
  rewrite map_app, np_gt_app, np_count_app.
  pose proof (np_count_bounds (np_gt (map result_t rs1)
                                 (t_isf (prm_n prmtrs - 1) alpha))) as B1.
  pose proof (np_count_bounds (np_gt (map result_t rs2)
                                 (t_isf (prm_n prmtrs - 1) alpha))) as B2.
  unfold len, np_gt in B1, B2. rewrite !length_map in B1, B2.
  unfold np_gt. lia.
Qed.

(** C7.  Run after [np.random.seed(s)], with the same parameters and
    number of experiments, the notebook gives the same outcome (the four
    arrays, the detections and every count of the report), value for value,
    and leaves the same generator state, whatever state the generator was
    in before the seed was set. *)
Theorem seeded_run_reproducible :
  forall (streams : Z -> nat -> num) (s : Z) (earlier_cells : M num unit)
         (alpha CI : num) (prmtrs : Prmtrs num) (Nexp : nat)
         (g1 g2 : RandomState num),
    seeded_run t_isf streams s earlier_cells alpha CI prmtrs Nexp g1
    = seeded_run t_isf streams s earlier_cells alpha CI prmtrs Nexp g2.
Proof.
  intros. unfold seeded_run.
  unfold bind at 1. unfold bind at 4. unfold np_random_seed. reflexivity.
Qed.

(** The selection's sum and length are the streaming aggregate's. *)
Lemma fold_detected_select (effect : list num) (detect : list bool)
    (s : num) (c : Z) :
  fold_left
    (fun (acc : num * Z) (ed : num * bool) =>
       if snd ed then (fst acc + fst ed, (snd acc + 1)%Z) else acc)
    (combine effect detect) (s, c)
  = (fold_left add (np_select effect detect) s,
     (c + len (np_select effect detect))%Z).
Proof.
  revert detect s c.
  induction effect as [ | v effect IH]; intros [ | d detect] s c;
    cbn [combine np_select fold_left]; unfold len; cbn [length];
    try (f_equal; lia).
  destruct d; cbn [fst snd].
  - rewrite IH. cbn [fold_left]. unfold len. cbn [length]. f_equal. lia.
  - apply IH.
Qed.

(** Arrays that agree wherever the mask is [True] have the same selection. *)
Lemma np_select_ext (A : Type) (a a' : list A) (mask : list bool) :
  (forall i, nth_error mask i = Some true -> nth_error a' i = nth_error a i) ->
  np_select a' mask = np_select a mask.
Proof.
  revert a a'. induction mask as [ | d mask IH]; intros a a' Hag.
  - destruct a, a'; reflexivity.
  - assert (Hnil : forall b : list bool, np_select (@nil A) b = [])
      by (intros [ | ? ?]; reflexivity).
    destruct a as [ | v a], a' as [ | v' a']; cbn [np_select].
    + reflexivity.
    + destruct d.
      * specialize (Hag 0%nat eq_refl). discriminate Hag.
      * rewrite <- (Hnil mask). apply IH.
        intros i Hi. specialize (Hag (S i) Hi). cbn in Hag. rewrite Hag.
        destruct i; reflexivity.
    + destruct d.
      * specialize (Hag 0%nat eq_refl). discriminate Hag.
      * rewrite <- (Hnil mask). symmetry. apply IH.
        intros i Hi. specialize (Hag (S i) Hi). cbn in Hag. rewrite <- Hag.
        destruct i; reflexivity.
    + destruct d.
      * pose proof (Hag 0%nat eq_refl) as H0. cbn in H0.
        injection H0 as ->. f_equal. apply IH.
        intros i Hi. exact (Hag (S i) Hi).
      * apply IH. intros i Hi. exact (Hag (S i) Hi).
Qed.

(** The mean over the detections reads [effect] at the detected trials
    only. *)
Lemma mean_detected_effect_reads_detected (prmtrs : Prmtrs num) (Nexp : nat)
    (x x' : Experiments num) :
  detect x' = detect x ->
  (forall i, nth_error (detect x) i = Some true ->
             nth_error (arr_effect (arrays x')) i
             = nth_error (arr_effect (arrays x)) i) ->
  mean_detected_effect (report prmtrs Nexp x')
  = mean_detected_effect (report prmtrs Nexp x).
Proof.
  intros Hd Hag. cbn [mean_detected_effect report]. rewrite Hd.
  rewrite (np_select_ext (arr_effect (arrays x)) (arr_effect (arrays x'))
             (detect x) Hag).
  reflexivity.
Qed.

End Aggregate.

(** Over the reals the mean over the detections is the streaming
    aggregate's running sum divided by its count. *)
Lemma mean_detected_effect_fold (prmtrs : Prmtrs R) (Nexp : nat)
    (x : Experiments R) :
  mean_detected_effect (report prmtrs Nexp x) =
  (fst (fold_detected (arr_effect (arrays x)) (detect x))
   / IZR (snd (fold_detected (arr_effect (arrays x)) (detect x))))%R.
Proof.
  unfold fold_detected. rewrite fold_detected_select. cbn [fst snd].
  cbn [mean_detected_effect report]. unfold np_mean.
  rewrite np_sum_real. cbn [add div of_int real].
  rewrite fold_left_Rplus_sum, Rplus_0_l, Z.add_0_l. reflexivity.
Qed.

(** C3 (amended).  [effect[detect].mean()] is computed over the detected
    trials only.  In exact arithmetic it is the sum of [effect] over the
    detected trials divided by their number, the specification's streaming
    aggregate.  In float64 it reads [effect] at the detected trials only:
    two runs with the same detections and the same [effect] at the detected
    trials have the same mean.  With no detection that mean is 0.0/0, and
    the value the report carries is NaN. *)
Theorem mean_detected_effect_nan_without_detection :
  (forall (prmtrs : Prmtrs R) (Nexp : nat) (x : Experiments R),
      let acc := fold_detected (arr_effect (arrays x)) (detect x) in
      mean_detected_effect (report prmtrs Nexp x)
      = (fst acc / IZR (snd acc))%R)
  /\ (forall (prmtrs : Prmtrs float) (Nexp : nat) (x x' : Experiments float),
         detect x' = detect x ->
         (forall i, nth_error (detect x) i = Some true ->
                    nth_error (arr_effect (arrays x')) i
                    = nth_error (arr_effect (arrays x)) i) ->
         mean_detected_effect (report prmtrs Nexp x')
         = mean_detected_effect (report prmtrs Nexp x))
  /\ (forall (prmtrs : Prmtrs float) (Nexp : nat) (x : Experiments float),
         detections (report prmtrs Nexp x) = 0%Z ->
         mean_detected_effect (report prmtrs Nexp x) = nan).
Proof.
  split; [ | split ].
  - intros prmtrs Nexp x acc. apply mean_detected_effect_fold.
  - intros prmtrs Nexp x x'. apply mean_detected_effect_reads_detected.
  - intros prmtrs Nexp x Hd. cbn [detections report] in Hd.
    cbn [mean_detected_effect report].
    rewrite np_select_none by exact Hd. reflexivity.
Qed.

(** ** Worked runs in float64 *)

Example example_experiments_run :
  simulate t_table 0.05%float 0.95%float prmtrs_n3 2 example_state
  = (Returned example_experiments,
     {| variates := variates example_state; position := 6 |}).
Proof. vm_compute. reflexivity. Qed.



(** C6, the claim as stated fails: with [n = 1] the call raises nothing; it
    returns the one sample as [effect], and NaN for both bounds and for
    [t]. *)
Lemma confidence_interval_n1_returns_nan :
  fst (confidence_interval t_table 0.95%float prmtrs_n1 example_state)
  = Returned ((0.4967 + 0.3)%float, nan, nan, nan).
Proof. vm_compute. reflexivity. Qed.

Lemma confidence_interval_n2_n1_return_witness :
  ltb (of_int 0) 1%float = true
  /\ (1 = 2 \/ 1 = 1)%Z
  /\ exists r g',
       confidence_interval t_table 0.95%float prmtrs_n1 example_state
       = (Returned r, g').
Proof.
  split; [ reflexivity | ].
  split; [ right; reflexivity | ].
  apply (confidence_interval_n2_n1_return t_table 0.95%float 0.3%float
           1%float 0.05%float (n := 1) example_state).
  - reflexivity.
  - right. reflexivity.
Defined.

Lemma confidence_interval_sample_statistics_witness :
  ((1 <= prm_n prmtrs_real)%Z
   /\ (0 <= prm_sigma prmtrs_real)%R
   /\ exists (vals : list R) (g' : RandomState R) (effect lCI uCI t : R),
        confidence_interval cauchy_isf (95 / 100)%R prmtrs_real real_state
        = (Returned (effect, lCI, uCI, t), g')
        /\ effect
           = (fold_right Rplus 0 (map (fun v => v + 0) vals) / 2)%R)
  /\ ((1 <= prm_n prmtrs_n3)%Z
      /\ (0 <=? prm_sigma prmtrs_n3)%float = true
      /\ exists (vals : list float) (g' : RandomState float)
                (effect lCI uCI t : float),
           confidence_interval t_table 0.95%float prmtrs_n3 example_state
           = (Returned (effect, lCI, uCI, t), g')
           /\ effect
              = (np_sum (map (fun v => v + 0.3)%float vals) / 3)%float
           /\ t = t_value_from_sample (map (fun v => v + 0.3)%float vals)).
Proof.
  split.
  - assert (Hn : (1 <= prm_n prmtrs_real)%Z) by (cbn; lia).
    assert (Hs : (0 <= prm_sigma prmtrs_real)%R) by (cbn; lra).
    split; [ exact Hn | split; [ exact Hs | ] ].
    destruct (proj1 confidence_interval_sample_statistics cauchy_isf
                (95 / 100)%R prmtrs_real real_state Hn Hs)
      as (vals & g' & effect & lCI & uCI & t & _ & E & _ & He & _).
    exists vals, g', effect, lCI, uCI, t. split; [ exact E | exact He ].
  - assert (Hn : (1 <= prm_n prmtrs_n3)%Z) by (cbn; lia).
    assert (Hs : (0 <=? prm_sigma prmtrs_n3)%float = true) by reflexivity.
    split; [ exact Hn | split; [ exact Hs | ] ].
    destruct (proj2 confidence_interval_sample_statistics t_table 0.95%float
                prmtrs_n3 example_state Hn Hs)
      as (vals & g' & effect & lCI & uCI & t & _ & E & _ & He & _ & _ & Ht).
    exists vals, g', effect, lCI, uCI, t.
    split; [ exact E | split; [ exact He | exact Ht ] ].
Defined.

(** The Cauchy quantiles at tail probabilities below one half are
    positive. *)
Lemma cauchy_isf_upper_tail (df : Z) (q : R) :
  (1 <= df)%Z -> (0 < q < 1 / 2)%R -> (0 < cauchy_isf df q)%R.
Proof.
  intros _ Hq. unfold cauchy_isf. pose proof PI_RGT_0 as Hpi.
  apply tan_gt_0; nra.
Qed.



(** C4, the code departs from the claim.  The cell takes its threshold at
    the notebook's global [alpha] (0.05, set by the experiments cell) and
    never reads [prmtrs['alpha']].  With [prmtrs['alpha'] = 0.025] and three
    experiments of three samples, the third trial has [t = 3.836...]: the
    cell detects it ([t_alpha = 2.920], the critical value at 0.05), where
    the critical value at the parameters' [alpha] (4.303) detects nothing;
    the same run with [prmtrs['alpha'] = 0.05] gives the same detections. *)
Lemma detect_thresholds_at_global_alpha :
  exists (x : Experiments float) (g' : RandomState float),
    simulate t_table 0.05%float 0.95%float prmtrs_alpha025 3 example_state
    = (Returned x, g')
    /\ nth_error (arr_t (arrays x)) 2 = Some 3.8364037045068327%float
    /\ t_alpha x = t_table 2 0.05%float
    /\ detect x = [false; false; true]
    /\ np_gt (arr_t (arrays x))
         (t_table (prm_n prmtrs_alpha025 - 1) (prm_alpha prmtrs_alpha025))
       = [false; false; false]
    /\ fst (simulate t_table 0.05%float 0.95%float prmtrs_n3 3 example_state)
       = Returned x.
Proof.
  eexists _, _. split; [ vm_compute; reflexivity | ].
  repeat split; vm_compute; reflexivity.
Qed.


Lemma number_of_detection_bounded_monotone_witness :
  leb (of_int 0) (prm_sigma prmtrs_n3) = true
  /\ (0 <= prm_n prmtrs_n3)%Z
  /\ exists (x x' : Experiments float) (g1 g2 : RandomState float),
       simulate t_table 0.05%float 0.95%float prmtrs_n3 2 example_state
       = (Returned x, g1)
       /\ simulate t_table 0.05%float 0.95%float prmtrs_n3 (2 + 3)
            example_state
          = (Returned x', g2)
       /\ (number_of_detection x <= number_of_detection x')%Z.
Proof.
  split; [ reflexivity | ].
  split; [ cbn; lia | ].
  destruct (number_of_detection_bounded_monotone t_table 0.05%float
              0.95%float prmtrs_n3 2 3 example_state)
    as (x & x' & g1 & g2 & E1 & E2 & _ & _ & Hm).
  - reflexivity.
  - cbn. lia.
  - exists x, x', g1, g2. repeat split; assumption.
Defined.

(** C3, the claim as stated fails: in the worked run no trial is detected,
    and the mean effect over the detections that the report carries is
    NaN. *)
Lemma no_detection_report_carries_nan :
  exists (x : Experiments float) (g' : RandomState float),
    simulate t_table 0.05%float 0.95%float prmtrs_n3 2 example_state
    = (Returned x, g')
    /\ number_of_detection x = 0%Z
    /\ mean_detected_effect (report prmtrs_n3 2 x) = nan.
Proof.
  eexists _, _. split; [ vm_compute; reflexivity | ].
  split; vm_compute; reflexivity.
Qed.

Lemma mean_detected_effect_nan_without_detection_witness :
  mean_detected_effect (report prmtrs_real 3 real_experiments)
  = (fst (fold_detected (arr_effect (arrays real_experiments))
            (detect real_experiments))
     / IZR (snd (fold_detected (arr_effect (arrays real_experiments))
                   (detect real_experiments))))%R
  /\ mean_detected_effect (report prmtrs_n3 3 (float_experiments 7%float))
     = mean_detected_effect (report prmtrs_n3 3 (float_experiments 0.125%float))
  /\ detections (report prmtrs_n3 2 example_experiments) = 0%Z
  /\ mean_detected_effect (report prmtrs_n3 2 example_experiments) = nan.
Proof.
  split; [ | split; [ | split; [ reflexivity | ] ] ].
  - apply (proj1 mean_detected_effect_nan_without_detection).
  - apply (proj1 (proj2 mean_detected_effect_nan_without_detection)).
    + reflexivity.
    + intros [ | [ | [ | i]]] Hi; cbn in Hi; try discriminate Hi;
        reflexivity.
  - apply (proj2 (proj2 mean_detected_effect_nan_without_detection)).
    reflexivity.
Defined.

(** ** The shifted sample in float64 *)

Lemma SF64add_zero_then (x m : spec_float) :
  m <> S754_zero true ->
  SF64add (SF64add x (S754_zero false)) m = SF64add x m.
Proof.
  intros Hm. unfold SF64add.
  destruct x as [[ | ] | [ | ] | | sx mx ex]; try reflexivity.
  destruct m as [[ | ] | [ | ] | | sm mm em]; try reflexivity.
  contradiction Hm. reflexivity.
Qed.

Lemma float_add_zero_then (x mu : float) :
  Prim2SF mu <> S754_zero true -> (x + 0 + mu = x + mu)%float.
Proof.
  intros Hm. apply Prim2SF_inj. rewrite !FloatAxioms.add_spec.
  change (Prim2SF 0%float) with (S754_zero false).
  apply SF64add_zero_then. exact Hm.
Qed.

Lemma float_zero_add (mu : float) :
  Prim2SF mu <> S754_zero true -> (0 + mu = mu)%float.
Proof.
  intros Hm. apply Prim2SF_inj. rewrite FloatAxioms.add_spec.
  change (Prim2SF 0%float) with (S754_zero false). unfold SF64add.
  destruct (Prim2SF mu) as [[ | ] | [ | ] | | sm mm em]; try reflexivity.
  contradiction Hm. reflexivity.
Qed.

(** In float64 the call is the specification's [runTrial], value for
    value, when [mu] is not the negative zero (with which the two samples
    can differ in the sign of a zero). *)
Lemma confidence_interval_is_runTrial_spec_float64
    (t_isf : Z -> float -> float) (CI : float) (prmtrs : Prmtrs float)
    (g : RandomState float) :
  Prim2SF (prm_mu prmtrs) <> S754_zero true ->
  confidence_interval t_isf CI prmtrs g = runTrial_spec t_isf CI prmtrs g.
Proof.
  intros Hm. rewrite confidence_interval_run.
  unfold runTrial_spec, bind, norm_rvs. cbn [scale loc].
  destruct (negb (leb (of_int 0) (prm_sigma prmtrs))); [ reflexivity | ].
  destruct (prm_n prmtrs <? 0)%Z; [ reflexivity | ].
  destruct (eqb (prm_sigma prmtrs) (of_int 0)).
  - unfold ret. rewrite map_repeat.
    change (add (of_int 0) (prm_mu prmtrs))
      with (0 + prm_mu prmtrs)%float.
    rewrite float_zero_add by exact Hm. reflexivity.
  - unfold bind, standard_normal, ret. cbn [fst snd].
    rewrite !map_map.
    rewrite (map_ext
               (fun i => add (add (mul (variates g i) (prm_sigma prmtrs))
                                  (of_int 0)) (prm_mu prmtrs))
               (fun i => add (mul (variates g i) (prm_sigma prmtrs))
                             (prm_mu prmtrs))).
    + reflexivity.
    + intros i. apply float_add_zero_then. exact Hm.
Qed.

(** C8.  [confidence_interval], which draws [n] samples around 0 with
    standard deviation [sigma] and adds [mu] to each, is the specification's
    [runTrial], which draws them around [mu]: from the same generator state
    (the same underlying draws) both give the same outcome and leave the
    same state.  This holds over the reals for all inputs, and in float64
    for every [mu] other than the negative zero. *)
Theorem confidence_interval_is_runTrial_spec :
  (forall (t_isf : Z -> R -> R) (CI : R) (prmtrs : Prmtrs R)
          (g : RandomState R),
      confidence_interval t_isf CI prmtrs g = runTrial_spec t_isf CI prmtrs g)
  /\ (forall (t_isf : Z -> float -> float) (CI : float)
             (prmtrs : Prmtrs float) (g : RandomState float),
         Prim2SF (prm_mu prmtrs) <> S754_zero true ->
         confidence_interval t_isf CI prmtrs g
         = runTrial_spec t_isf CI prmtrs g).
Proof.
  split.
  - apply confidence_interval_is_runTrial_spec_real.
  - apply confidence_interval_is_runTrial_spec_float64.
Qed.

Lemma confidence_interval_is_runTrial_spec_witness :
  confidence_interval cauchy_isf (95 / 100)%R prmtrs_real real_state
  = runTrial_spec cauchy_isf (95 / 100)%R prmtrs_real real_state
  /\ confidence_interval t_table 0.95%float prmtrs_n2 example_state
     = runTrial_spec t_table 0.95%float prmtrs_n2 example_state.
Proof.
  split.
  - apply (proj1 confidence_interval_is_runTrial_spec).
  - apply (proj2 confidence_interval_is_runTrial_spec).
    cbv. discriminate.
Defined.

(** Over the reals the detection flag of the cell is the proposition
    [t > t_alpha]. *)
Lemma detect_real (t_isf : Z -> R -> R) (alpha : R) (prmtrs : Prmtrs R)
    (a : Arrays R) (i : nat) (t : R) :
  nth_error (arr_t a) i = Some t ->
  exists d : bool,
    nth_error (detect (detect_trials t_isf alpha prmtrs a)) i = Some d
    /\ (d = true <-> (t > t_isf (prm_n prmtrs - 1)%Z alpha)%R).
Proof.
  intros Ht. exists (Rltb (t_isf (prm_n prmtrs - 1)%Z alpha) t). split.
  - cbn [detect detect_trials]. unfold np_gt.
    rewrite nth_error_map, Ht. reflexivity.
  - rewrite Rltb_true. unfold Rgt. tauto.
Qed.

(** Run again without reseeding, the cell continues in the generator's
    sequence and gives other values. *)
Example rerun_without_seed_differs :
  let first := simulate t_table 0.05%float 0.95%float prmtrs_n3 1 in
  arr_effect (arrays example_experiments)
  = [0.63536666666666664; 0.65156666666666674]%float
  /\ match first example_state with
     | (Returned x1, g1) =>
         match first g1 with
         | (Returned x2, _) =>
             arr_effect (arrays x1) = [0.63536666666666664]%float
             /\ arr_effect (arrays x2) = [0.65156666666666674]%float
         | _ => False
         end
     | _ => False
     end.
Proof. vm_compute. repeat split. Qed.

(** ** What a run draws, and the coverage counts *)

Section Draws.

Variable num : Type.
Context `{Numeric num}.
Variable t_isf : Z -> num -> num.
Variables (CI : num) (prmtrs : Prmtrs num).

Local Open Scope num_scope.

(** With a positive scale a call takes exactly [n] variates. *)
Lemma confidence_interval_draws (g : RandomState num) :
  (prm_sigma prmtrs >=? of_int 0) = true ->
  (prm_sigma prmtrs =? of_int 0) = false ->
  (0 <= prm_n prmtrs)%Z ->
  exists r,
    confidence_interval t_isf CI prmtrs g
    = (Returned r,
       {| variates := variates g;
          position := position g + Z.to_nat (prm_n prmtrs) |}).
Proof.
  intros Hs Hz Hn. rewrite confidence_interval_run.
  unfold norm_rvs. cbn [scale loc]. rewrite Hs, Hz. cbn [negb].
  assert (Hlt : (prm_n prmtrs <? 0)%Z = false) by (apply Z.ltb_ge; exact Hn).
  rewrite Hlt. unfold bind, standard_normal, ret. cbn [fst snd].
  eexists. reflexivity.
Qed.

(** Every result of a run has a property that every call's result has. *)
Lemma trial_results_Forall (P : num * num * num * num -> Prop) :
  (forall g r g',
      confidence_interval t_isf CI prmtrs g = (Returned r, g') -> P r) ->
  forall k g rs g',
    trial_results t_isf CI prmtrs k g = (Returned rs, g') -> Forall P rs.
Proof.
  intros HP. induction k as [ | k IH]; intros g rs g'; cbn.
  - unfold ret. intros E. inversion E. constructor.
  - unfold bind at 1.
    destruct (confidence_interval t_isf CI prmtrs g) as [[r | e] g1] eqn:E1;
      [ | discriminate ].
    unfold bind.
    destruct (trial_results t_isf CI prmtrs k g1) as [[rs1 | e] g2] eqn:E2;
      [ | discriminate ].
    unfold ret. intros E. inversion E. subst. constructor.
    + eapply HP. exact E1.
    + eapply IH. exact E2.
Qed.

(** X1.  The simulation cell, run for [Nexp] experiments with a positive
    [sigma], returns four arrays of [Nexp] entries and takes [Nexp * n]
    variates from the generator, leaving its sequence as it was. *)
Theorem simulate_trials_draws :
  forall (Nexp : nat) (g : RandomState num),
    (prm_sigma prmtrs >=? of_int 0) = true ->
    (prm_sigma prmtrs =? of_int 0) = false ->
    (0 <= prm_n prmtrs)%Z ->
    exists a : Arrays num,
      simulate_trials t_isf CI prmtrs Nexp g
      = (Returned a,
         {| variates := variates g;
            position := position g + Nexp * Z.to_nat (prm_n prmtrs) |})
      /\ length (arr_effect a) = Nexp /\ length (arr_lCI a) = Nexp
      /\ length (arr_uCI a) = Nexp /\ length (arr_t a) = Nexp.
Proof.
  intros Nexp g Hs Hz Hn. rewrite simulate_trials_results.
  assert (Hrun : exists rs,
             trial_results t_isf CI prmtrs Nexp g
             = (Returned rs,
                {| variates := variates g;
                   position := position g
                               + Nexp * Z.to_nat (prm_n prmtrs) |})
             /\ length rs = Nexp).
  { revert g. induction Nexp as [ | Nexp IH]; intros g.
    - exists []. cbn. unfold ret. rewrite Nat.add_0_r.
      destruct g; split; reflexivity.
    - destruct (confidence_interval_draws g Hs Hz Hn) as (r & E1).
      destruct (IH {| variates := variates g;
                      position := position g + Z.to_nat (prm_n prmtrs) |})
        as (rs & E2 & L).
      exists (r :: rs). cbn [trial_results]. unfold bind. rewrite E1, E2.
      unfold ret. cbn [variates position length]. split; [ | lia ].
      f_equal. f_equal. cbn [Nat.mul]. lia. }
  destruct Hrun as (rs & E & L). rewrite E.
  exists (arrays_of_results rs). cbn. rewrite !length_map. auto.
Qed.

End Draws.

Lemma simulate_trials_draws_witness :
  leb (of_int 0) (prm_sigma prmtrs_n3) = true
  /\ eqb (prm_sigma prmtrs_n3) (of_int 0) = false
  /\ (0 <= prm_n prmtrs_n3)%Z
  /\ exists a : Arrays float,
       simulate_trials t_table 0.95%float prmtrs_n3 2 example_state
       = (Returned a,
          {| variates := variates example_state; position := 6 |})
       /\ length (arr_t a) = 2.
Proof.
  split; [ reflexivity | ].
  split; [ reflexivity | ].
  split; [ cbn; lia | ].
  destruct (simulate_trials_draws t_table 0.95%float prmtrs_n3 2
              example_state)
    as (a & E & _ & _ & _ & L).
  - reflexivity.
  - reflexivity.
  - cbn. lia.
  - exists a. split; [ exact E | exact L ].
Defined.

Section RealCoverage.

Variable t_isf : Z -> R -> R.

Hypothesis t_isf_upper_tail :
  forall (df : Z) (q : R), (1 <= df)%Z -> (0 < q < 1 / 2)%R ->
                           (0 < t_isf df q)%R.

Local Open Scope R_scope.

(** Over the reals a call with valid parameters returns ordered bounds. *)
Lemma confidence_interval_ordered_real (CI : R) (prmtrs : Prmtrs R)
    (g g' : RandomState R) (r : R * R * R * R) :
  valid_parameters CI prmtrs = true ->
  confidence_interval t_isf CI prmtrs g = (Returned r, g') ->
  result_lCI r <= result_uCI r.
Proof.
  intros Hv. destruct (proj1 (valid_parameters_real _ _) Hv)
    as (Hn & Hs & _ & HCI).
  rewrite confidence_interval_run.
  destruct (norm_rvs (sst_norm (of_int 0) (prm_sigma prmtrs))
              (prm_n prmtrs) g) as [[vals | e] g1]; [ | discriminate ].
  cbv zeta. intros E.
  set (sample := map (fun v => (v + prm_mu prmtrs)%num) vals) in E.
  set (h := (t_isf (prm_n prmtrs - 1) ((of_int 1 - CI) / of_int 2)
             * (np_std sample 1 / np_sqrt (of_int (prm_n prmtrs))))%num) in E.
  assert (Hh : 0 <= h).
  { pose proof (std_error_mean_nonneg sample (n := prm_n prmtrs)) as Hse.
    assert (Ht : 0 < t_isf (prm_n prmtrs - 1) ((1 - CI) / 2))
      by (apply t_isf_upper_tail; [ lia | lra ]).
    apply Rmult_le_pos; [ exact (Rlt_le _ _ Ht) | apply Hse; lia ]. }
  injection E as Er Eg. subst r.
  cbn [result_lCI result_uCI fst snd].
  change (np_mean sample - h <= np_mean sample + h).
  lra.
Qed.

(** A bound cannot be both above and below [mu]: among the selected
    trials, those with the upper bound below [mu] and those with the lower
    bound above [mu] are together at most the selected trials. *)
Lemma coverage_counts_exclusive (l u : list R) (d : list bool) (mu : R) :
  Forall2 Rle l u ->
  (np_count (np_lt (np_select u d) mu)
   + np_count (np_gt (np_select l d) mu) <= np_count d)%Z.
Proof.
  intros Hlu. revert d. induction Hlu as [ | x y l u Hxy Hlu IH]; intros d.
  - pose proof (np_count_bounds d) as Hd.
    replace (np_select (@nil R) d) with (@nil R) by (destruct d; reflexivity).
    unfold np_lt, np_gt. cbn [map]. change (np_count []) with 0%Z. lia.
  - destruct d as [ | b d]; [ cbn; lia | ].
    rewrite np_count_cons. specialize (IH d).
    destruct b; cbn [np_select Z.b2z]; [ | lia ].
    unfold np_lt, np_gt in *. cbn [map]. rewrite !np_count_cons.
    cbn [ltb real] in *.
    destruct (Rltb y mu) eqn:E1, (Rltb mu x) eqn:E2; cbn [Z.b2z]; try lia.
    apply Rltb_true in E1. apply Rltb_true in E2. lra.
Qed.

(** X2.  Over the reals, for valid parameters, the cells return, and the
    number of detected experiments whose interval misses [mu] is between 0
    and the number of detections. *)
Theorem not_in_CI_within_detections :
  forall (alpha CI : R) (prmtrs : Prmtrs R) (Nexp : nat)
         (g : RandomState R),
    valid_parameters CI prmtrs = true ->
    exists (x : Experiments R) (g' : RandomState R),
      simulate t_isf alpha CI prmtrs Nexp g = (Returned x, g')
      /\ (0 <= not_in_CI (report prmtrs Nexp x)
          <= detections (report prmtrs Nexp x))%Z.
Proof.
  intros alpha CI prmtrs Nexp g Hv.
  destruct (proj1 (valid_parameters_real _ _) Hv) as (Hn & Hs & _ & _).
  assert (Hs' : leb (of_int 0) (prm_sigma prmtrs) = true)
    by (cbn; apply Rleb_true; lra).
  assert (Hn0 : (0 <= prm_n prmtrs)%Z) by lia.
  destruct (trial_results_return t_isf CI prmtrs Nexp g Hs' Hn0)
    as (rs & g' & E).
  eexists _, g'. rewrite simulate_run, E. split; [ reflexivity | ].
  cbn [not_in_CI detections report arrays detect detect_trials
       arrays_of_results arr_lCI arr_uCI arr_t].
  assert (Hord : Forall2 Rle (map result_lCI rs) (map result_uCI rs)).
  { assert (HF : Forall (fun r => result_lCI r <= result_uCI r) rs).
    { eapply trial_results_Forall; [ | exact E ].
      intros g0 r g1. apply confidence_interval_ordered_real. exact Hv. }
    clear E. induction HF; cbn; constructor; assumption. }
  pose proof (coverage_counts_exclusive
                (np_gt (map result_t rs) (t_isf (prm_n prmtrs - 1) alpha))
                (prm_mu prmtrs) Hord) as Hc.
  pose proof (np_count_bounds
                (np_lt (np_select (map result_uCI rs)
                          (np_gt (map result_t rs)
                             (t_isf (prm_n prmtrs - 1) alpha)))
                       (prm_mu prmtrs))) as B1.
  pose proof (np_count_bounds
                (np_gt (np_select (map result_lCI rs)
                          (np_gt (map result_t rs)
                             (t_isf (prm_n prmtrs - 1) alpha)))
                       (prm_mu prmtrs))) as B2.
  lia.
Qed.

End RealCoverage.

Lemma not_in_CI_within_detections_witness :
  valid_parameters (95 / 100)%R prmtrs_real = true
  /\ exists (x : Experiments R) (g' : RandomState R),
       simulate cauchy_isf (1 / 20)%R (95 / 100)%R prmtrs_real 2 real_state
       = (Returned x, g')
       /\ (not_in_CI (report prmtrs_real 2 x)
           <= detections (report prmtrs_real 2 x))%Z.
Proof.
  assert (Hv : valid_parameters (95 / 100)%R prmtrs_real = true).
  { apply valid_parameters_real. cbn. repeat split; (lia || lra). }
  split; [ exact Hv | ].
  destruct (not_in_CI_within_detections cauchy_isf cauchy_isf_upper_tail
              (1 / 20)%R (95 / 100)%R prmtrs_real 2 real_state Hv)
    as (x & g' & E & _ & Hle).
  exists x, g'. split; assumption.
Defined.

(** ** The experiments cell *)

Section Experiments.

Variable num : Type.
Context `{Numeric num}.
Variable t_sf : Z -> num -> num.
Variables (distrib : norm_frozen num) (sample_size : Z) (alpha : num).

Local Open Scope num_scope.

Lemma stars_app (rows1 rows2 : list (Row num)) :
  stars (rows1 ++ rows2) = (stars rows1 + stars rows2)%Z.
Proof.
  unfold stars. induction rows1 as [ | r rows1 IH]; cbn.
  - reflexivity.
  - cbn in IH. rewrite IH. lia.
Qed.

(** The loop, from any state: it appends one line per experiment, one
    mean per star, and takes [sample_size] variates per experiment. *)
Lemma significance_loop (count i0 : nat) (rows0 : list (Row num))
    (es0 : list num) (g : RandomState num) :
  (scale distrib >=? of_int 0) = true ->
  (scale distrib =? of_int 0) = false ->
  (0 <= sample_size)%Z ->
  exists (rows : list (Row num)) (es : list num),
    for_range i0 count (significance_trial t_sf distrib sample_size alpha)
      (rows0, es0) g
    = (Returned (rows0 ++ rows, es0 ++ es),
       {| variates := variates g;
          position := position g + count * Z.to_nat sample_size |})
    /\ length rows = count
    /\ Forall (row_ok t_sf sample_size alpha) rows
    /\ Z.of_nat (length es) = stars rows.
Proof.
  intros Hs Hz Hn. revert i0 rows0 es0 g.
  induction count as [ | count IH]; intros i0 rows0 es0 g.
  - exists [], []. cbn. unfold ret. rewrite !app_nil_r, Nat.add_0_r.
    destruct g. repeat split. constructor.
  - cbn [for_range]. unfold bind at 1. unfold significance_trial at 1.
    unfold bind at 1. unfold norm_rvs. rewrite Hs, Hz. cbn [negb].
    assert (Hlt : (sample_size <? 0)%Z = false)
      by (apply Z.ltb_ge; exact Hn).
    rewrite Hlt. unfold bind at 1. unfold standard_normal at 1.
    unfold ret at 1 2. cbn [fst snd].
    set (sample := map (fun v => v * scale distrib + loc distrib)
                     (map (variates g)
                        (seq (position g) (Z.to_nat sample_size)))).
    set (row := {| row_t_val := t_value_from_sample sample;
                   row_p_val :=
                     t_sf (sample_size - 1) (t_value_from_sample sample);
                   row_signif :=
                     Z.b2z (t_sf (sample_size - 1)
                              (t_value_from_sample sample) <=? alpha) |}).
    set (es1 := if (Z.b2z (t_sf (sample_size - 1)
                             (t_value_from_sample sample) <=? alpha)%num
                    =? 0)%Z
                then es0 else es0 ++ [np_mean sample]).
    destruct (IH (S i0) (rows0 ++ [row]) es1
                {| variates := variates g;
                   position := position g + Z.to_nat sample_size |})
      as (rows & es & E & L & F & C).
    rewrite E. cbn [variates position].
    exists (row :: rows),
      (if (row_signif row =? 0)%Z then es else np_mean sample :: es).
    split; [ | split; [ | split ] ].
    + f_equal; [ | f_equal; cbn [Nat.mul]; lia ].
      f_equal. rewrite <- app_assoc. cbn [app]. f_equal.
      subst es1. cbn [row_signif row].
      destruct (Z.b2z _ =? 0)%Z; [ reflexivity | ].
      rewrite <- app_assoc. reflexivity.
    + cbn. lia.
    + constructor; [ | exact F ]. split; reflexivity.
    + change (row :: rows) with ([row] ++ rows). rewrite stars_app.
      unfold stars at 1. cbn [map fold_right].
      destruct (t_sf (sample_size - 1) (t_value_from_sample sample)
                <=? alpha) eqn:Ep;
        cbn [row_signif row Z.b2z Z.eqb]; rewrite ?Ep; cbn [Z.b2z Z.eqb];
        cbn [length]; lia.
Qed.

(** X3.  The experiments cell, with a positive scale and a sample size
    that is not negative, returns and prints one line per experiment; in
    each line the p value is the survival function at the t value and the
    line is starred exactly when [p_val <= alpha]; [effect_size] has one
    entry per star, so at most one per experiment; and the generator has
    given [nb_of_experiments * sample_size] variates. *)
Theorem significance_experiments_report :
  forall (nb_of_experiments : nat) (g : RandomState num),
    (scale distrib >=? of_int 0) = true ->
    (scale distrib =? of_int 0) = false ->
    (0 <= sample_size)%Z ->
    exists (rows : list (Row num)) (effect_size : list num),
      significance_experiments t_sf distrib sample_size nb_of_experiments
        alpha g
      = (Returned (rows, effect_size),
         {| variates := variates g;
            position :=
              position g + nb_of_experiments * Z.to_nat sample_size |})
      /\ length rows = nb_of_experiments
      /\ Forall (row_ok t_sf sample_size alpha) rows
      /\ Z.of_nat (length effect_size) = stars rows
      /\ length effect_size <= nb_of_experiments.
Proof.
  intros nb g Hs Hz Hn.
  destruct (significance_loop nb 0 [] [] g Hs Hz Hn)
    as (rows & es & E & L & F & C).
  exists rows, es. unfold significance_experiments. rewrite E.
  repeat split; try assumption.
  assert (Hb : (0 <= stars rows <= Z.of_nat (length rows))%Z).
  { clear E L C. unfold stars.
    induction F as [ | r rows [_ Hr] F IH]; cbn [map fold_right length].
    - lia.
    - rewrite Hr. destruct (row_p_val r <=? alpha); cbn [Z.b2z]; lia. }
  lia.
Qed.

End Experiments.

Lemma significance_experiments_report_witness :
  leb (of_int 0) (scale (sst_norm 0.22%float 1%float)) = true
  /\ eqb (scale (sst_norm 0.22%float 1%float)) (of_int 0) = false
  /\ (0 <= 3)%Z
  /\ exists (rows : list (Row float)) (effect_size : list float)
            (g' : RandomState float),
       significance_experiments (fun _ x => (1 / (1 + x * x))%float)
         (sst_norm 0.22%float 1%float) 3 4 0.05%float example_state
       = (Returned (rows, effect_size), g')
       /\ length rows = 4
       /\ length effect_size <= 4.
Proof.
  split; [ reflexivity | ].
  split; [ reflexivity | ].
  split; [ lia | ].
  destruct (significance_experiments_report
              (fun _ x => (1 / (1 + x * x))%float)
              (sst_norm 0.22%float 1%float) (sample_size := 3) 0.05%float
              4 example_state)
    as (rows & es & E & L & _ & _ & B).
  - reflexivity.
  - reflexivity.
  - lia.
  - exists rows, es. eexists. repeat split; eassumption.
Defined.

Lemma Reqb_false (x y : R) : Reqb x y = false <-> x <> y.
Proof.
  unfold Reqb. destruct (Req_dec_T x y); split; intros;
    (discriminate || contradiction || reflexivity || assumption).
Qed.

Lemma Rleb_false (x y : R) : Rleb x y = false <-> (y < x)%R.
Proof.
  unfold Rleb. destruct (Rle_dec x y); split; intros;
    (discriminate || lra || reflexivity).
Qed.

(** The Cauchy survival function decreases, and the Cauchy quantile
    inverts it. *)
Lemma cauchy_sf_decreasing (df : Z) (x y : R) :
  (x < y)%R -> (cauchy_sf df y < cauchy_sf df x)%R.
Proof.
  intros Hxy. unfold cauchy_sf. pose proof PI_RGT_0 as Hpi.
  pose proof (atan_increasing x y Hxy) as Ha.
  apply Rplus_lt_compat_l. apply Ropp_lt_contravar.
  apply Rmult_lt_compat_r; [ apply Rinv_0_lt_compat; exact Hpi | exact Ha ].
Qed.

Lemma cauchy_sf_isf (df : Z) (q : R) :
  (0 < q < 1)%R -> cauchy_sf df (cauchy_isf df q) = q.
Proof.
  intros Hq. unfold cauchy_sf, cauchy_isf. pose proof PI_RGT_0 as Hpi.
  rewrite atan_tan by (split; nra). field. lra.
Qed.

Section RealExperiments.

Variables (t_sf t_isf : Z -> R -> R).
Variables (distrib : norm_frozen R) (sample_size : Z) (alpha : R).

Local Open Scope R_scope.

(** What is taken from the library: the survival function of Student's t
    decreases strictly, and the inverse survival function inverts it at
    [alpha]. *)
Hypothesis t_sf_decreasing :
  forall x y : R,
    x < y -> t_sf (sample_size - 1) y < t_sf (sample_size - 1) x.

Hypothesis t_sf_isf :
  t_sf (sample_size - 1) (t_isf (sample_size - 1) alpha) = alpha.

Lemma row_ok_critical_value (r : Row R) :
  row_ok t_sf sample_size alpha r ->
  (row_signif r = 1%Z <-> t_isf (sample_size - 1) alpha <= row_t_val r)
  /\ (row_signif r = 0%Z <-> row_t_val r < t_isf (sample_size - 1) alpha).
Proof.
  intros [Hp Hsig]. rewrite Hsig, Hp. cbn [leb real].
  set (c := t_isf (sample_size - 1) alpha).
  set (t := row_t_val r).
  destruct (Rle_lt_dec c t) as [Hct | Htc].
  - assert (Hle : t_sf (sample_size - 1) t <= alpha).
    { destruct Hct as [Hlt | Heq].
      - left. rewrite <- t_sf_isf. apply t_sf_decreasing. exact Hlt.
      - right. rewrite <- Heq. exact t_sf_isf. }
    apply Rleb_true in Hle. rewrite Hle. cbn. split; split; intros; (lia || lra).
  - assert (Hgt : alpha < t_sf (sample_size - 1) t).
    { rewrite <- t_sf_isf. apply t_sf_decreasing. exact Htc. }
    apply Rleb_false in Hgt. rewrite Hgt. cbn.
    split; split; intros; (lia || lra).
Qed.

(** X4.  Over the reals the p value rule of the experiments cell is a
    critical value rule: a line is starred ([p_val <= alpha]) exactly when
    its t value is at least the critical value [isf(alpha)] of Student's t
    with [sample_size - 1] degrees of freedom.  (The simulation cell
    detects on [t > t_alpha]: the two rules differ only at
    [t = t_alpha].) *)
Theorem significance_is_critical_value_rule :
  forall (nb_of_experiments : nat) (g : RandomState R),
    0 < scale distrib ->
    (0 <= sample_size)%Z ->
    exists (rows : list (Row R)) (effect_size : list R)
           (g' : RandomState R),
      significance_experiments t_sf distrib sample_size nb_of_experiments
        alpha g
      = (Returned (rows, effect_size), g')
      /\ Forall
           (fun r =>
              (row_signif r = 1%Z
               <-> t_isf (sample_size - 1) alpha <= row_t_val r)
              /\ (row_signif r = 0%Z
                  <-> row_t_val r < t_isf (sample_size - 1) alpha))
           rows.
Proof.
  intros nb g Hs Hn.
  assert (Hs1 : leb (of_int 0) (scale distrib) = true)
    by (cbn; apply Rleb_true; lra).
  assert (Hs2 : eqb (scale distrib) (of_int 0) = false)
    by (cbn; apply Reqb_false; lra).
  destruct (significance_loop t_sf distrib alpha nb 0 [] [] g Hs1 Hs2 Hn)
    as (rows & es & E & _ & F & _).
  exists rows, es. eexists. unfold significance_experiments. rewrite E.
  split; [ reflexivity | ].
  eapply Forall_impl; [ | exact F ].
  intros r Hr. apply row_ok_critical_value. exact Hr.
Qed.

End RealExperiments.

Lemma significance_is_critical_value_rule_witness :
  (0 < scale (sst_norm (22 / 100) 1))%R
  /\ (0 <= 2)%Z
  /\ exists (rows : list (Row R)) (effect_size : list R)
            (g' : RandomState R),
       significance_experiments cauchy_sf (sst_norm (22 / 100)%R 1%R) 2 3
         (1 / 20)%R real_state
       = (Returned (rows, effect_size), g')
       /\ Forall
            (fun r =>
               row_signif r = 1%Z
               <-> (cauchy_isf 1 (1 / 20) <= row_t_val r)%R)
            rows.
Proof.
  split; [ cbn; lra | ].
  split; [ lia | ].
  destruct (significance_is_critical_value_rule cauchy_sf cauchy_isf
              (sst_norm (22 / 100)%R 1%R) (sample_size := 2)
              (alpha := (1 / 20)%R))
    with (nb_of_experiments := 3%nat) (g := real_state)
    as (rows & es & g' & E & F).
  - intros x y. apply cauchy_sf_decreasing.
  - apply cauchy_sf_isf. lra.
  - cbn. lra.
  - lia.
  - exists rows, es, g'. split; [ exact E | ].
    eapply Forall_impl; [ | exact F ]. intros r [Hr _]. exact Hr.
Defined.

(** ** The plot cell *)

(** A selection by a mask as long as the array has as many entries as the
    mask has [True]s. *)
Lemma np_select_length (A : Type) (a : list A) (mask : list bool) :
  length a = length mask ->
  Z.of_nat (length (np_select a mask)) = np_count mask.
Proof.
  revert mask. induction a as [ | v a IH]; intros [ | d mask] Hl;
    cbn in Hl; try discriminate.
  - reflexivity.
  - rewrite np_count_cons. cbn [np_select].
    destruct d; cbn [length Z.b2z]; rewrite <- (IH mask) by lia; lia.
Qed.

Lemma np_arange_length (k : Z) : length (np_arange k) = Z.to_nat k.
Proof. unfold np_arange. rewrite length_map, length_seq. reflexivity. Qed.

Section Plot.

Variable num : Type.
Context `{Numeric num}.
Variable t_isf : Z -> num -> num.

Local Open Scope num_scope.

(** X5.  On what the simulation cell returned, the plot cell does not
    fail: each of the four series it draws ([lCI[detect]],
    [effect[detect]], [uCI[detect]], [mu_line[detect]]) has as many points
    as [xd = np.arange(detect.sum())], also when nothing was detected. *)
Theorem plot_cell_series_match :
  forall (alpha CI : num) (prmtrs : Prmtrs num) (Nexp : nat)
         (g g' : RandomState num) (x : Experiments num),
    simulate t_isf alpha CI prmtrs Nexp g = (Returned x, g') ->
    let points := Z.to_nat (number_of_detection x) in
    length (np_arange (np_count (detect x))) = points
    /\ length (np_select (arr_lCI (arrays x)) (detect x)) = points
    /\ length (np_select (arr_effect (arrays x)) (detect x)) = points
    /\ length (np_select (arr_uCI (arrays x)) (detect x)) = points
    /\ length (np_select (map (fun v => v * prm_mu prmtrs) (np_ones Nexp))
                 (detect x)) = points
    /\ exists ratio : num, plot_cell prmtrs Nexp x = Returned (ratio, 4).
Proof.
  intros alpha CI prmtrs Nexp g g' x Hrun points.
  rewrite simulate_run in Hrun.
  destruct (trial_results t_isf CI prmtrs Nexp g) as [[rs | e] g1] eqn:E;
    [ | discriminate ].
  injection Hrun as Hx Hg. subst x g1.
  pose proof (trial_results_length _ _ _ _ _ E) as L.
  subst points.
  cbn [number_of_detection detect detect_trials arrays arrays_of_results
       arr_lCI arr_effect arr_uCI arr_t] in *.
  set (d := np_gt (map result_t rs) (t_isf (prm_n prmtrs - 1) alpha)).
  assert (Ld : length d = Nexp)
    by (unfold d, np_gt; rewrite !length_map; exact L).
  assert (Hsel : forall a : list num,
             length a = Nexp ->
             length (np_select a d) = Z.to_nat (np_count d)).
  { intros a La. rewrite <- (np_select_length a d) by congruence.
    rewrite Nat2Z.id. reflexivity. }
  assert (H1 : length (np_select (map result_lCI rs) d)
               = Z.to_nat (np_count d))
    by (apply Hsel; rewrite length_map; exact L).
  assert (H2 : length (np_select (map result_effect rs) d)
               = Z.to_nat (np_count d))
    by (apply Hsel; rewrite length_map; exact L).
  assert (H3 : length (np_select (map result_uCI rs) d)
               = Z.to_nat (np_count d))
    by (apply Hsel; rewrite length_map; exact L).
  assert (H4 : length (np_select
                         (map (fun v => v * prm_mu prmtrs) (np_ones Nexp)) d)
               = Z.to_nat (np_count d)).
  { apply Hsel. unfold np_ones. rewrite length_map, repeat_length.
    reflexivity. }
  repeat (split; [ first [ apply np_arange_length | assumption ] | ]).
  unfold plot_cell, plt_plot.
  cbn [arrays detect detect_trials arrays_of_results arr_lCI arr_effect
       arr_uCI arr_t forallb fst snd].
  fold d. rewrite np_arange_length, H1, H2, H3, H4, Nat.eqb_refl.
  cbn [andb length].
  eexists. reflexivity.
Qed.


End Plot.

Lemma plot_cell_series_match_witness :
  simulate t_table 0.05%float 0.95%float prmtrs_n3 2 example_state
  = (Returned example_experiments,
     {| variates := variates example_state; position := 6 |})
  /\ length (np_select (arr_lCI (arrays example_experiments))
               (detect example_experiments))
     = Z.to_nat (number_of_detection example_experiments)
  /\ exists ratio : float,
       plot_cell prmtrs_n3 2 example_experiments = Returned (ratio, 4).
Proof.
  split; [ exact example_experiments_run | ].
  destruct (plot_cell_series_match t_table 0.05%float 0.95%float prmtrs_n3 2
              example_state example_experiments_run)
    as (_ & H1 & _ & _ & _ & Hp).
  split; [ exact H1 | exact Hp ].
Defined.


(** ** Intervals and detection over the reals *)

Section RealDetection.

Variable t_isf : Z -> R -> R.

Hypothesis t_isf_upper_tail :
  forall (df : Z) (q : R), (1 <= df)%Z -> (0 < q < 1 / 2)%R ->
                           (0 < t_isf df q)%R.

Local Open Scope R_scope.

(** The shape of what a call with valid parameters returns: an effect, a
    standard error that is not negative, a positive critical value. *)
Lemma confidence_interval_shape_real (CI : R) (prmtrs : Prmtrs R)
    (g g' : RandomState R) (r : R * R * R * R) :
  valid_parameters CI prmtrs = true ->
  confidence_interval t_isf CI prmtrs g = (Returned r, g') ->
  exists e sem : R,
    0 <= sem
    /\ 0 < t_isf (prm_n prmtrs - 1) ((1 - CI) / 2)
    /\ result_effect r = e
    /\ result_lCI r = e - t_isf (prm_n prmtrs - 1) ((1 - CI) / 2) * sem
    /\ result_uCI r = e + t_isf (prm_n prmtrs - 1) ((1 - CI) / 2) * sem
    /\ result_t r = e / sem.
Proof.
  intros Hv. destruct (proj1 (valid_parameters_real _ _) Hv)
    as (Hn & Hs & _ & HCI).
  rewrite confidence_interval_run.
  destruct (norm_rvs (sst_norm (of_int 0) (prm_sigma prmtrs))
              (prm_n prmtrs) g) as [[vals | e] g1]; [ | discriminate ].
  cbv zeta. intros E.
  set (sample := map (fun v => (v + prm_mu prmtrs)%num) vals) in E.
  injection E as Er Eg. subst r.
  exists (np_mean sample),
    (np_std sample 1 / R_sqrt.sqrt (IZR (prm_n prmtrs))).
  split; [ apply std_error_mean_nonneg; lia | ].
  split; [ apply t_isf_upper_tail; [ lia | lra ] | ].
  repeat split.
Qed.

(** X7.  Over the reals, for valid parameters, the call returns, and when
    the interval it returns is not reduced to a point, the interval lies
    above 0 exactly when [t] is above the two-sided critical value
    [t_ci = isf((1-CI)/2)], lies below 0 exactly when [t] is below
    [-t_ci], and so contains 0 exactly when [-t_ci <= t <= t_ci]. *)
Theorem interval_excludes_zero_iff_t_beyond_t_ci :
  forall (CI : R) (prmtrs : Prmtrs R) (g : RandomState R),
    valid_parameters CI prmtrs = true ->
    exists (effect lCI uCI t : R) (g' : RandomState R),
      let t_ci := t_isf (prm_n prmtrs - 1) ((1 - CI) / 2) in
      confidence_interval t_isf CI prmtrs g
      = (Returned (effect, lCI, uCI, t), g')
      /\ (lCI < uCI ->
          (0 < lCI <-> t_ci < t)
          /\ (uCI < 0 <-> t < - t_ci)
          /\ (lCI <= 0 <= uCI <-> - t_ci <= t <= t_ci)).
Proof.
  intros CI prmtrs g Hv.
  destruct (proj1 (valid_parameters_real _ _) Hv) as (Hn & Hs & _ & _).
  assert (Hs' : leb (of_int 0) (prm_sigma prmtrs) = true)
    by (cbn; apply Rleb_true; lra).
  assert (Hn0 : (0 <= prm_n prmtrs)%Z) by lia.
  destruct (confidence_interval_returns t_isf CI prmtrs g Hs' Hn0)
    as ([[[effect lCI] uCI] t] & g' & E).
  exists effect, lCI, uCI, t, g'. cbv zeta. split; [ exact E | ].
  destruct (confidence_interval_shape_real _ _ _ Hv E)
    as (e & sem & Hsem & Ht & He & Hl & Hu & Htv).
  cbn [result_effect result_lCI result_uCI result_t fst snd] in *.
  set (c := t_isf (prm_n prmtrs - 1) ((1 - CI) / 2)) in *.
  intros Hlu.
  assert (Hpos : 0 < sem) by nra.
  assert (Hes : e = t * sem) by (rewrite Htv; field; lra).
  subst lCI uCI. rewrite Hes. clear Htv Hes He Hlu.
  repeat split; intros; nra.
Qed.

(** What the next theorem takes from the library besides: the inverse
    survival function decreases. *)
Hypothesis t_isf_antitone :
  forall (df : Z) (p q : R),
    0 < p <= q -> q < 1 -> t_isf df q <= t_isf df p.

(** A non-degenerate interval above a [mu >= 0] goes with a [t] above the
    one-sided critical value, when the interval's tail probability is at
    most [alpha]. *)
Lemma lower_bound_above_mu_detected (alpha CI : R) (prmtrs : Prmtrs R)
    (g g' : RandomState R) (r : R * R * R * R) :
  valid_parameters CI prmtrs = true ->
  0 <= prm_mu prmtrs ->
  (1 - CI) / 2 <= alpha < 1 ->
  confidence_interval t_isf CI prmtrs g = (Returned r, g') ->
  result_lCI r < result_uCI r ->
  prm_mu prmtrs < result_lCI r ->
  t_isf (prm_n prmtrs - 1) alpha < result_t r.
Proof.
  intros Hv Hmu Ha E Hlu Hl.
  destruct (proj1 (valid_parameters_real _ _) Hv) as (_ & _ & _ & HCI).
  destruct (confidence_interval_shape_real _ _ _ Hv E)
    as (e & sem & Hsem & Ht & He & Hlo & Hup & Htv).
  assert (Hle : t_isf (prm_n prmtrs - 1) alpha
                <= t_isf (prm_n prmtrs - 1) ((1 - CI) / 2))
    by (apply t_isf_antitone; lra).
  set (c := t_isf (prm_n prmtrs - 1) ((1 - CI) / 2)) in *.
  rewrite Hlo, Hup in Hlu. rewrite Hlo in Hl.
  assert (Hpos : 0 < sem) by nra.
  assert (Hes : e = result_t r * sem) by (rewrite Htv; field; lra).
  rewrite Hes in Hl.
  assert (c < result_t r) by nra.
  lra.
Qed.

(** Counting over all the experiments or over the detected ones is the
    same when every counted experiment is detected. *)
Lemma np_count_detected (l t : list R) (mu ta : R) :
  Forall2 (fun li ti => mu < li -> ta < ti) l t ->
  np_count (np_gt l mu) = np_count (np_gt (np_select l (np_gt t ta)) mu).
Proof.
  induction 1 as [ | li ti l t Hi Hlt IH].
  - reflexivity.
  - unfold np_gt in *. cbn [map np_select]. cbn [ltb real] in *.
    rewrite np_count_cons.
    destruct (Rltb mu li) eqn:E1.
    + assert (E2 : Rltb ta ti = true)
        by (apply Rltb_true, Hi, Rltb_true; exact E1).
      rewrite E2. cbn [map].
      rewrite np_count_cons. cbn [ltb real].
      rewrite E1. rewrite IH. reflexivity.
    + destruct (Rltb ta ti); cbn [map Z.b2z].
      * rewrite np_count_cons. cbn [ltb real]. rewrite E1. cbn [Z.b2z].
        rewrite IH. reflexivity.
      * rewrite IH. lia.
Qed.

(** X8.  Over the reals, for valid parameters with [mu >= 0] and an
    interval whose tail probability [(1-CI)/2] is at most [alpha] (0.025
    and 0.05 in the notebook), the cells return, and when no interval is
    reduced to a point, every experiment whose lower bound is above [mu]
    is a detected one: the report's two counts of them, over all the
    experiments and over the detected ones, are equal. *)
Theorem lower_bound_above_mu_counts_agree :
  forall (alpha CI : R) (prmtrs : Prmtrs R) (Nexp : nat)
         (g : RandomState R),
    valid_parameters CI prmtrs = true ->
    0 <= prm_mu prmtrs ->
    (1 - CI) / 2 <= alpha < 1 ->
    exists (x : Experiments R) (g' : RandomState R),
      simulate t_isf alpha CI prmtrs Nexp g = (Returned x, g')
      /\ (Forall2 Rlt (arr_lCI (arrays x)) (arr_uCI (arrays x)) ->
          lower_above_mu (report prmtrs Nexp x)
          = lower_above_mu_detected (report prmtrs Nexp x)).
Proof.
  intros alpha CI prmtrs Nexp g Hv Hmu Ha.
  destruct (proj1 (valid_parameters_real _ _) Hv) as (Hn & Hs & _ & _).
  assert (Hs' : leb (of_int 0) (prm_sigma prmtrs) = true)
    by (cbn; apply Rleb_true; lra).
  assert (Hn0 : (0 <= prm_n prmtrs)%Z) by lia.
  destruct (trial_results_return t_isf CI prmtrs Nexp g Hs' Hn0)
    as (rs & g' & E).
  eexists _, g'. rewrite simulate_run, E. split; [ reflexivity | ].
  cbn [lower_above_mu lower_above_mu_detected report arrays detect
       detect_trials arrays_of_results arr_lCI arr_uCI arr_t].
  intros Hlu. apply np_count_detected.
  assert (HF : Forall
                 (fun r => result_lCI r < result_uCI r ->
                           prm_mu prmtrs < result_lCI r ->
                           t_isf (prm_n prmtrs - 1) alpha < result_t r) rs).
  { eapply trial_results_Forall; [ | exact E ].
    intros g0 r g1 E0. eapply lower_bound_above_mu_detected; eassumption. }
  clear E. induction HF as [ | r rs Hr HF IH]; cbn [map] in *.
  - constructor.
  - inversion Hlu; subst. constructor; [ auto | apply IH; assumption ].
Qed.

End RealDetection.

Lemma cauchy_isf_antitone (df : Z) (p q : R) :
  (0 < p <= q)%R -> (q < 1)%R -> (cauchy_isf df q <= cauchy_isf df p)%R.
Proof.
  intros [Hp [Hpq | Hpq]] Hq; [ | subst; lra ].
  unfold cauchy_isf. pose proof PI_RGT_0 as Hpi.
  left. apply tan_increasing; nra.
Qed.

(** The worked real trial: from the variates 0 and 1 the call returns an
    interval that is not reduced to a point. *)
Lemma real_trial_nondegenerate :
  exists (r : R * R * R * R) (g' : RandomState R),
    confidence_interval cauchy_isf (95 / 100)%R prmtrs_real real_state
    = (Returned r, g')
    /\ (result_lCI r < result_uCI r)%R.
Proof.
  rewrite confidence_interval_run. unfold norm_rvs.
  cbn [scale loc prmtrs_real prm_sigma prm_n prm_mu].
  replace (leb (of_int 0) 1%R) with true
    by (symmetry; cbn; apply Rleb_true; lra).
  replace (eqb 1%R (of_int 0)) with false
    by (symmetry; cbn; apply Reqb_false; lra).
  cbn [negb Z.ltb Z.compare]. unfold bind, standard_normal, ret.
  cbn [fst snd real_state variates position Z.to_nat Pos.to_nat
       Pos.iter_op Nat.add seq map INR].
  eexists _, _. split; [ reflexivity | ].
  cbn [result_lCI result_uCI fst snd].
  change (Pos.to_nat 2) with 2%nat.
  set (sample := map _ (map _ (map _ (seq 0 2)))).
  set (s := div (np_std sample 1) (np_sqrt (of_int 2))).
  set (c := cauchy_isf (2 - 1) _).
  assert (Hc : (0 < c)%R).
  { subst c. apply cauchy_isf_upper_tail; [ lia | cbn; lra ]. }
  assert (Hs : (0 < s)%R).
  { subst s. unfold np_std, np_sqrt. cbn [sqrt div real of_int].
    apply Rmult_lt_0_compat.
    - apply sqrt_lt_R0. subst sample.
      unfold np_var, np_mean, np_sum, len. cbn. lra.
    - apply Rinv_0_lt_compat. apply sqrt_lt_R0. lra. }
  cbn [add sub mul real]. nra.
Qed.

Lemma interval_excludes_zero_iff_t_beyond_t_ci_witness :
  valid_parameters (95 / 100)%R prmtrs_real = true
  /\ exists (effect lCI uCI t : R) (g' : RandomState R),
       confidence_interval cauchy_isf (95 / 100)%R prmtrs_real real_state
       = (Returned (effect, lCI, uCI, t), g')
       /\ (lCI < uCI)%R
       /\ ((0 < lCI)%R <-> (cauchy_isf 1 ((1 - 95 / 100) / 2) < t)%R).
Proof.
  assert (Hv : valid_parameters (95 / 100)%R prmtrs_real = true).
  { apply valid_parameters_real. cbn. repeat split; (lia || lra). }
  split; [ exact Hv | ].
  destruct (interval_excludes_zero_iff_t_beyond_t_ci cauchy_isf
              cauchy_isf_upper_tail (95 / 100)%R prmtrs_real real_state Hv)
    as (effect & lCI & uCI & t & g' & E & Hd).
  destruct real_trial_nondegenerate as (r & g1 & E1 & Hlu).
  rewrite E in E1. injection E1 as Er Eg. subst r.
  cbn [result_lCI result_uCI fst snd] in Hlu.
  exists effect, lCI, uCI, t, g'.
  split; [ exact E | split; [ exact Hlu | ] ].
  exact (proj1 (Hd Hlu)).
Defined.

Lemma lower_bound_above_mu_counts_agree_witness :
  valid_parameters (95 / 100)%R prmtrs_real = true
  /\ (0 <= prm_mu prmtrs_real)%R
  /\ ((1 - 95 / 100) / 2 <= 1 / 20 < 1)%R
  /\ exists (x : Experiments R) (g' : RandomState R),
       simulate cauchy_isf (1 / 20)%R (95 / 100)%R prmtrs_real 1 real_state
       = (Returned x, g')
       /\ Forall2 Rlt (arr_lCI (arrays x)) (arr_uCI (arrays x))
       /\ lower_above_mu (report prmtrs_real 1 x)
          = lower_above_mu_detected (report prmtrs_real 1 x).
Proof.
  assert (Hv : valid_parameters (95 / 100)%R prmtrs_real = true).
  { apply valid_parameters_real. cbn. repeat split; (lia || lra). }
  split; [ exact Hv | ].
  split; [ cbn; lra | ].
  split; [ lra | ].
  destruct (lower_bound_above_mu_counts_agree cauchy_isf
              cauchy_isf_upper_tail cauchy_isf_antitone
              (alpha := (1 / 20)%R) (CI := (95 / 100)%R) prmtrs_real 1
              real_state Hv)
    as (x & g' & E & Hc); [ cbn; lra | lra | ].
  assert (Hlu : Forall2 Rlt (arr_lCI (arrays x)) (arr_uCI (arrays x))).
  { destruct real_trial_nondegenerate as (r & g1 & E1 & Hr).
    rewrite simulate_run in E. cbn [trial_results] in E.
    unfold bind at 1 in E. rewrite E1 in E. unfold bind, ret in E.
    injection E as Ex Eg. subst x.
    cbn [arrays detect_trials arrays_of_results arr_lCI arr_uCI map].
    constructor; [ exact Hr | constructor ]. }
  exists x, g'. split; [ exact E | split; [ exact Hlu | exact (Hc Hlu) ] ].
Defined.

(** ** The t value and the unit of measurement *)

Section RealScale.

Local Open Scope R_scope.

Lemma fold_right_Rplus_scale (c : R) (xs : list R) :
  fold_right Rplus 0 (map (Rmult c) xs) = c * fold_right Rplus 0 xs.
Proof.
  induction xs as [ | x xs IH]; cbn [map fold_right].
  - ring.
  - rewrite IH. ring.
Qed.

Lemma np_sum_scale (c : R) (xs : list R) :
  np_sum (map (Rmult c) xs) = c * np_sum xs.
Proof.
  rewrite !np_sum_real. apply fold_right_Rplus_scale.
Qed.

Lemma np_mean_scale (c : R) (xs : list R) :
  np_mean (map (Rmult c) xs) = c * np_mean xs.
Proof.
  unfold np_mean, len. rewrite np_sum_scale, length_map.
  cbn [div real]. unfold Rdiv. ring.
Qed.

Lemma np_var_scale (c : R) (xs : list R) (ddof : Z) :
  np_var (map (Rmult c) xs) ddof = c * c * np_var xs ddof.
Proof.
  unfold np_var. cbv zeta. rewrite np_mean_scale. unfold len.
  rewrite length_map, !map_map. cbn [sub mul div real].
  rewrite (map_ext
             (fun x => (c * x - c * np_mean xs) * (c * x - c * np_mean xs))
             (fun x => c * c * ((x - np_mean xs) * (x - np_mean xs))))
    by (intros x; ring).
  rewrite <- (map_map (fun x => (x - np_mean xs) * (x - np_mean xs))
                (Rmult (c * c))).
  rewrite np_sum_scale. unfold Rdiv. ring.
Qed.

(** X9.  Over the reals, for a sample with a positive variance, the t
    value does not depend on the unit the sample is measured in
    ([t_value_from_sample] of the sample times [c > 0] is that of the
    sample), and changes sign with the sample. *)
Theorem t_value_from_sample_scale :
  forall (c : R) (sample : list R),
    0 < c ->
    0 < np_var sample 1 ->
    t_value_from_sample (map (Rmult c) sample) = t_value_from_sample sample
    /\ t_value_from_sample (map Ropp sample)
       = - t_value_from_sample sample.
Proof.
  intros c sample Hc Hvar.
  assert (Hlen : 0 < IZR (len sample)).
  { destruct sample as [ | x xs].
    - exfalso. revert Hvar. unfold np_var, np_sum. cbn. lra.
    - apply IZR_lt. unfold len. cbn [length]. lia. }
  assert (Hq : 0 < R_sqrt.sqrt (IZR (len sample)))
    by (apply sqrt_lt_R0; exact Hlen).
  assert (Hs : 0 < R_sqrt.sqrt (np_var sample 1))
    by (apply sqrt_lt_R0; exact Hvar).
  assert (Hscale : forall k : R,
             t_value_from_sample (map (Rmult k) sample)
             = k * np_mean sample
               / (R_sqrt.sqrt (k * k * np_var sample 1)
                  / R_sqrt.sqrt (IZR (len sample)))).
  { intros k. unfold t_value_from_sample. cbv zeta.
    rewrite np_mean_scale, np_var_scale. unfold len.
    rewrite length_map. reflexivity. }
  assert (Hplain : t_value_from_sample sample
                   = np_mean sample
                     / (R_sqrt.sqrt (np_var sample 1)
                        / R_sqrt.sqrt (IZR (len sample))))
    by reflexivity.
  split.
  - rewrite Hscale, Hplain.
    rewrite sqrt_mult_alt by nra. rewrite sqrt_square by lra.
    field. lra.
  - rewrite (map_ext Ropp (Rmult (-1))) by (intros x; ring).
    rewrite Hscale, Hplain.
    replace (-1 * -1 * np_var sample 1) with (np_var sample 1) by ring.
    field. lra.
Qed.

End RealScale.

Lemma t_value_from_sample_scale_witness :
  (0 < 2)%R
  /\ (0 < np_var [0; 1]%R 1)%R
  /\ t_value_from_sample (map (Rmult 2) [0; 1]%R)
     = t_value_from_sample [0; 1]%R.
Proof.
  assert (Hvar : (0 < np_var [0; 1]%R 1)%R).
  { unfold np_var, np_mean, np_sum, len. cbn. lra. }
  assert (Hc : (0 < 2)%R) by lra.
  split; [ exact Hc | ].
  split; [ exact Hvar | ].
  exact (proj1 (t_value_from_sample_scale Hc Hvar)).
Defined.

(** ** The Cohen's d cell *)

Lemma Forall_setitem (A : Type) (P : A -> Prop) (a : list A) (i : nat)
    (v : A) :
  Forall P a -> P v -> Forall P (setitem a i v).
Proof.
  intros Ha Hv. revert i. induction Ha as [ | x a Hx Ha IH]; intros [ | i];
    cbn; constructor; auto.
Qed.

Lemma np_linspace_length (num : Type) `{Numeric num} (start stop : num)
    (n : nat) :
  length (np_linspace start stop n) = n.
Proof.
  unfold np_linspace. cbv zeta.
  assert (Hy : forall f : num -> num,
             length (map (fun v => add v start)
                       (map f (map (fun i => of_int (Z.of_nat i))
                                 (seq 0 n)))) = n)
    by (intros f; rewrite !length_map, length_seq; reflexivity).
  destruct (0 <? Z.of_nat n - 1)%Z;
    [ destruct (eqb _ _) | ];
    destruct (1 <? n)%nat; rewrite ?setitem_length; apply Hy.
Qed.

Section RealCohen.

Local Open Scope R_scope.

(** Over the reals, the values of a descending [np.linspace] lie between
    its two ends. *)
Lemma np_linspace_between (start stop : R) (n : nat) :
  stop <= start ->
  Forall (fun s => stop <= s <= start) (np_linspace start stop n).
Proof.
  intros Hle. unfold np_linspace. cbv zeta.
  assert (Hy : forall f : R -> R,
             (forall i : nat, (i < n)%nat ->
                              stop - start <= f (IZR (Z.of_nat i)) <= 0) ->
             Forall (fun s => stop <= s <= start)
               (map (fun v => add v start)
                  (map f (map (fun i => of_int (Z.of_nat i)) (seq 0 n))))).
  { intros f Hf. rewrite !map_map. apply Forall_forall. intros s Hin.
    apply in_map_iff in Hin. destruct Hin as (i & <- & Hi).
    apply in_seq in Hi. cbn [add of_int real].
    specialize (Hf i ltac:(lia)). lra. }
  assert (Hend : forall a : list R,
             Forall (fun s => stop <= s <= start) a ->
             Forall (fun s => stop <= s <= start)
               (if (1 <? n)%nat then setitem a (n - 1) stop else a)).
  { intros a Ha. destruct (1 <? n)%nat; [ | exact Ha ].
    apply Forall_setitem; [ exact Ha | lra ]. }
  destruct (0 <? Z.of_nat n - 1)%Z eqn:Ediv.
  - apply Z.ltb_lt in Ediv.
    assert (Hk : 0 < IZR (Z.of_nat n - 1)) by (apply IZR_lt; exact Ediv).
    assert (Hq : forall i : nat,
               (i < n)%nat ->
               0 <= IZR (Z.of_nat i) / IZR (Z.of_nat n - 1) <= 1).
    { intros i Hi.
      assert (0 <= IZR (Z.of_nat i)) by (apply IZR_le; lia).
      assert (IZR (Z.of_nat i) <= IZR (Z.of_nat n - 1))
        by (apply IZR_le; lia).
      split.
      - apply Rmult_le_pos; [ assumption | ].
        left. apply Rinv_0_lt_compat. exact Hk.
      - apply (Rmult_le_reg_r (IZR (Z.of_nat n - 1))); [ exact Hk | ].
        unfold Rdiv. rewrite Rmult_assoc, Rinv_l by lra. lra. }
    cbn [sub mul div of_int real eqb].
    destruct (Reqb ((stop - start) / IZR (Z.of_nat n - 1)) 0);
      apply Hend, Hy; intros i Hi; specialize (Hq i Hi).
    + nra.
    + replace (IZR (Z.of_nat i) * ((stop - start) / IZR (Z.of_nat n - 1)))
        with (IZR (Z.of_nat i) / IZR (Z.of_nat n - 1) * (stop - start))
        by (field; lra).
      nra.
  - apply Z.ltb_ge in Ediv. apply Hend, Hy. intros i Hi.
    assert (i = 0%nat) by lia. subst i. cbn [mul sub real Z.of_nat]. lra.
Qed.

(** The triples pair each [mu] with its [sigma] and their quotient. *)
Lemma zip3_divide (P : R -> Prop) (sigmas muse : list R) :
  length sigmas = length muse ->
  Forall P sigmas ->
  map (fun smc : R * R * R => snd (fst smc))
    (zip3 sigmas muse (np_divide muse sigmas)) = muse
  /\ Forall (fun smc : R * R * R =>
               P (fst (fst smc)) /\ snd smc = snd (fst smc) / fst (fst smc))
       (zip3 sigmas muse (np_divide muse sigmas)).
Proof.
  intros Hl HP. revert muse Hl.
  induction HP as [ | s sigmas Hs HP IH]; intros [ | m muse] Hl;
    cbn in Hl; try discriminate.
  - split; [ reflexivity | constructor ].
  - destruct (IH muse ltac:(lia)) as [Hm HF].
    cbn [zip3 np_divide map fst snd]. split.
    + f_equal. exact Hm.
    + constructor; [ cbn; split; [ exact Hs | reflexivity ] | exact HF ].
Qed.

(** X10.  Over the reals, for any tuple [muse], the Cohen's d cell makes
    one string per effect, in the order of [muse]; each is formatted from
    a [sigma] between 0.5 and 1 (so no division by zero occurs), the
    effect, and [d = mu / sigma]; for an effect that is not negative [d]
    lies between [mu] and [2 * mu]. *)
Theorem cohen_values_in_range :
  forall (fmt : R -> R -> R -> String.string) (muse : list R),
    length (cohenstr fmt muse) = length muse
    /\ map (fun smc : R * R * R => snd (fst smc)) (cohen_values muse) = muse
    /\ Forall
         (fun smc : R * R * R =>
            let sigma := fst (fst smc) in
            let mu := snd (fst smc) in
            let d := snd smc in
            1 / 2 <= sigma <= 1
            /\ d = mu / sigma
            /\ (0 <= mu -> mu <= d <= 2 * mu))
         (cohen_values muse).
Proof.
  intros fmt muse.
  pose proof (np_linspace_length 1 (1 / 2) (length muse)) as Hlen.
  pose proof (@np_linspace_between 1 (1 / 2) (length muse) ltac:(lra)) as Hb.
  destruct (@zip3_divide (fun s => 1 / 2 <= s <= 1)
              (np_linspace 1 (1 / 2) (length muse)) muse Hlen Hb)
    as [Hm HF].
  change (np_linspace 1 (1 / 2) (length muse))
    with (np_linspace (of_int 1) (div (of_int 1) (of_int 2)) (length muse))
    in Hm, HF.
  fold (cohen_values muse) in Hm, HF.
  split; [ | split ].
  - unfold cohenstr. rewrite length_map.
    rewrite <- Hm at 2. rewrite length_map. reflexivity.
  - exact Hm.
  - eapply Forall_impl; [ | exact HF ].
    intros [[s m] d]. cbn [fst snd]. intros [Hs Hd].
    split; [ exact Hs | split; [ exact Hd | ] ].
    intros Hmu. subst d.
    assert (Hw : 1 <= / s <= 2).
    { split.
      - rewrite <- Rinv_1. apply Rinv_le_contravar; lra.
      - replace 2 with (/ (1 / 2)) by field.
        apply Rinv_le_contravar; lra. }
    unfold Rdiv. nra.
Qed.

End RealCohen.

(** ** The experiments cell without a significant result *)

(** X11.  In float64, when the experiments cell stars no line,
    [effect_size] stays empty, and the mean and the standard deviation the
    next cell prints for it are both NaN. *)
Theorem effect_size_summary_nan_without_star :
  forall (t_sf : Z -> float -> float) (distrib : norm_frozen float)
         (sample_size : Z) (alpha : float) (nb_of_experiments : nat)
         (g : RandomState float),
    leb (of_int 0) (scale distrib) = true ->
    eqb (scale distrib) (of_int 0) = false ->
    (0 <= sample_size)%Z ->
    exists (rows : list (Row float)) (effect_size : list float)
           (g' : RandomState float),
      significance_experiments t_sf distrib sample_size nb_of_experiments
        alpha g
      = (Returned (rows, effect_size), g')
      /\ (stars rows = 0%Z ->
          effect_size = []
          /\ effect_size_summary effect_size = (nan, nan)).
Proof.
  intros t_sf distrib sample_size alpha nb g Hs Hz Hn.
  destruct (significance_loop t_sf distrib alpha nb 0 [] [] g Hs Hz Hn)
    as (rows & es & E & _ & _ & C).
  exists rows, es. eexists. unfold significance_experiments. rewrite E.
  split; [ reflexivity | ].
  intros H0. rewrite H0 in C.
  assert (Hes : es = []) by (destruct es; [ reflexivity | cbn in C; lia ]).
  subst es. split; reflexivity.
Qed.

Lemma effect_size_summary_nan_without_star_witness :
  leb (of_int 0) (scale (sst_norm 0.22%float 1%float)) = true
  /\ eqb (scale (sst_norm 0.22%float 1%float)) (of_int 0) = false
  /\ (0 <= 3)%Z
  /\ exists (rows : list (Row float)) (effect_size : list float)
            (g' : RandomState float),
       significance_experiments (fun _ _ => 1%float)
         (sst_norm 0.22%float 1%float) 3 2 0.05%float example_state
       = (Returned (rows, effect_size), g')
       /\ stars rows = 0%Z
       /\ effect_size_summary effect_size = (nan, nan).
Proof.
  split; [ reflexivity | ].
  split; [ reflexivity | ].
  split; [ lia | ].
  destruct (effect_size_summary_nan_without_star (fun _ _ => 1%float)
              (sst_norm 0.22%float 1%float) (sample_size := 3) 0.05%float 2
              example_state)
    as (rows & es & g' & E & Hnan).
  - reflexivity.
  - reflexivity.
  - lia.
  - assert (Hst : stars rows = 0%Z).
    { assert (Hf : fst (significance_experiments (fun _ _ => 1%float)
                          (sst_norm 0.22%float 1%float) 3 2 0.05%float
                          example_state)
                   = Returned (rows, es)) by (rewrite E; reflexivity).
      vm_compute in Hf. injection Hf as Hr _. subst rows. reflexivity. }
    exists rows, es, g'.
    split; [ exact E | split; [ exact Hst | exact (proj2 (Hnan Hst)) ] ].
Defined.
